(** * content-downloader: the search / validation pipeline of [ctdl/ctdl.py]

    A shallow embedding of [scrape], [get_links], [get_url_nofollow],
    [validate_links], [search], [check_threats], [validate_args],
    [download_content], [show_filetypes] and [main], and the properties of
    the pipeline proved over it.

    Python values are modelled as follows: [str] as [string], [int] as [Z],
    [list] as [list], the insertion-ordered [dict] as an association list
    whose keys are kept distinct.  Code that touches the console or the
    network runs in a state-and-exception monad over a [World]. *)

From Stdlib Require Import List String Ascii ZArith Lia Bool DecimalString.
Import ListNotations.

Local Open Scope string_scope.
Local Open Scope Z_scope.

Set Implicit Arguments.

(** ** Python built-ins used by the module *)

Module Py.

(** [s[:n]] on a string, for a literal [n >= 0]. *)
Fixpoint str_take (n : nat) (s : string) : string :=
  match n, s with
  | O, _ => EmptyString
  | S _, EmptyString => EmptyString
  | S n', String c s' => String c (str_take n' s')
  end.

(** [s[n:]] on a string, for a literal [n >= 0]. *)
Fixpoint str_drop (n : nat) (s : string) : string :=
  match n, s with
  | O, _ => s
  | S _, EmptyString => EmptyString
  | S n', String _ s' => str_drop n' s'
  end.

(** [s.startswith(p)], as a boolean. *)
Fixpoint startswith (p s : string) : bool :=
  match p, s with
  | EmptyString, _ => true
  | String _ _, EmptyString => false
  | String a p', String b s' => Ascii.eqb a b && startswith p' s'
  end.

(** [sub in s] on strings: [sub] occurs in [s] as a contiguous run. *)
Fixpoint str_in (sub s : string) : bool :=
  startswith sub s ||
  match s with
  | EmptyString => false
  | String _ s' => str_in sub s'
  end.

(** [s.split(sep)[0]] for a one-character separator: the text before the
    first occurrence of [sep], or all of [s] when there is none. *)
Fixpoint split_head (sep : ascii) (s : string) : string :=
  match s with
  | EmptyString => EmptyString
  | String c s' => if Ascii.eqb c sep then EmptyString
                   else String c (split_head sep s')
  end.

(** [str.replace(a, b)] for one-character [a] and [b]. *)
Fixpoint replace_char (a b : ascii) (s : string) : string :=
  match s with
  | EmptyString => EmptyString
  | String c s' => String (if Ascii.eqb c a then b else c) (replace_char a b s')
  end.

(** [sep.join(xs)]. *)
Fixpoint join (sep : string) (xs : list string) : string :=
  match xs with
  | [] => EmptyString
  | [x] => x
  | x :: rest => x ++ sep ++ join sep rest
  end.

(** ["{0:4}".format(s)]: a string is left-aligned and padded with spaces
    to the minimum width. *)
Fixpoint spaces (n : nat) : string :=
  match n with
  | O => EmptyString
  | S n' => String " " (spaces n')
  end.

Definition ljust (width : nat) (s : string) : string :=
  s ++ spaces (width - String.length s).

(** ["%d" % n]. *)
Definition fmt_d (n : Z) : string := NilZero.string_of_int (Z.to_int n).

(** [range(start, stop, step)] for a positive [step]. *)
Definition range (start stop step : Z) : list Z :=
  map (fun i => start + step * Z.of_nat i)
      (seq 0 (Z.to_nat ((stop - start + step - 1) / step))).

(** [xs[:n]] on a list; a negative [n] counts from the end. *)
Definition slice_to {A} (n : Z) (xs : list A) : list A :=
  if 0 <=? n then firstn (Z.to_nat n) xs
  else firstn (Z.to_nat (Z.of_nat (List.length xs) + n)) xs.

(** *** The insertion-ordered [dict] with [str] keys *)

Definition dict (V : Type) := list (string * V).

Definition keys {V} (d : dict V) : list string := map fst d.
Definition values {V} (d : dict V) : list V := map snd d.

(** [d[k]], as an option ([None] is Python's [KeyError]). *)
Fixpoint get {V} (d : dict V) (k : string) : option V :=
  match d with
  | [] => None
  | (k', v) :: rest => if String.eqb k k' then Some v else get rest k
  end.

(** [d[k] = v]: an existing key keeps its position, a new key goes last. *)
Fixpoint set {V} (d : dict V) (k : string) (v : V) : dict V :=
  match d with
  | [] => [(k, v)]
  | (k', v') :: rest =>
      if String.eqb k k' then (k', v) :: rest else (k', v') :: set rest k v
  end.

End Py.

(** Specification-side vocabulary for strings. *)

Definition is_substring (a b : string) : Prop :=
  exists pre post, b = pre ++ a ++ post.

Definition has_prefix (p s : string) : Prop :=
  exists rest, s = p ++ rest.

(** ** The scheme filter of [validate_links] (first loop) *)

Definition scheme_ok (link : string) : bool :=
  Py.str_in (Py.str_take 7 link) "http://" ||
  Py.str_in (Py.str_take 8 link) "https://".

Fixpoint scheme_filter_loop (links valid_links : list string) : list string :=
  match links with
  | [] => valid_links
  | link :: rest =>
      if scheme_ok link
      then scheme_filter_loop rest (valid_links ++ [link])
      else scheme_filter_loop rest valid_links
  end.

Definition scheme_filter (links : list string) : list string :=
  scheme_filter_loop links [].

(** ** Exceptions, results and the outside world *)

Inductive exn : Type :=
| HTTPError (code : Z)            (* urllib.error.HTTPError, with its [code] *)
| URLError                        (* DNS failure, refused connection, unknown scheme *)
| ValueError                      (* malformed URL *)
| SocketTimeout
| ConnectionError                 (* raised by the [requests] session *)
| KeyError
| TypeError
| AttributeError
| EOFError
| SystemExit (status : option Z)  (* [sys.exit(status)] *)
| OtherError (name : string).

Inductive result (A : Type) : Type :=
| Val (a : A)
| Raise (e : exn).

Arguments Val {A} a.
Arguments Raise {A} e.

(** The exit status the interpreter gives the process: 0 when [main]
    returns and for [sys.exit()] without an argument, the argument of
    [sys.exit(n)], 1 for an exception that is not caught. *)
Definition exit_status {A} (r : result A) : Z :=
  match r with
  | Val _ => 0
  | Raise (SystemExit None) => 0
  | Raise (SystemExit (Some n)) => n
  | Raise _ => 1
  end.

(** A result block (an [h3] tag) as [bs4] hands it to [scrape], as far as
    the function looks at it: [result.a] is the first anchor in the block,
    or [None], and an anchor carries a dict of attributes. *)
Module Soup.
Record anchor : Type := { attrs : Py.dict string }.
Record tag : Type := { a : option anchor }.
End Soup.

(** An HTTP response, as far as the module looks at it. *)
Record response : Type := { getcode : Z; content : string }.

(** The [params] dict of [search]: the keys ['q'] and ['start']. *)
Module Params.
Record t : Type := { q : string; start : Z }.
Definition set_start (p : t) (i : Z) : t := {| q := q p; start := i |}.
End Params.

Definition headers := Py.dict string.

(** A value of an extension catalog of [utils.py]: one extension or a list
    of synonyms. *)
Inductive ext_value : Type :=
| Scalar (ext : string)
| Synonyms (exts : list string).

(** What the process does on the network, in the order it does it. *)
Inductive net_event : Type :=
| SearchRequest (url : string) (p : Params.t) (h : headers)
| Probe (url : string)
| Download (in_parallel : bool) (links : list string) (directory : string)
           (min_file_size max_file_size : Z) (no_redirects : bool).

(** What the process writes to standard output: [print] writes a line,
    [input] writes its prompt without a newline. *)
Inductive console_write : Type :=
| Printed (text : string)
| Prompted (text : string).

(** The collaborators the module imports and the remote world behind them.
    [utils.py] and [downloader.py] are not part of the module, nor are
    [requests], [urllib] and [bs4]: their behaviour is a parameter.
    [find_results html] stands for the [href] attributes of the anchors of
    [BeautifulSoup(html, 'lxml').findAll('h3', {'class': 'r'})], in document
    order.  [str_is x lit] is the interpreter's answer to [x is lit] for a
    line [x] that [input] returned and a one-character literal [lit] of the
    module: whether the two are one object is not fixed by the language
    (CPython 3.11 builds a fresh string for every line and answers no). *)
Record Env : Type := {
  Net : Type;
  str_is : string -> string -> bool;
  session_get : string -> Params.t -> headers -> Net -> result response * Net;
  urlopen : string -> Net -> result response * Net;
  find_results : string -> list string;
  download_series :
    list string -> string -> Z -> Z -> bool -> Net -> result unit * Net;
  download_parallel :
    list string -> string -> Z -> Z -> bool -> Net -> result unit * Net;
  FILE_EXTENSIONS : Py.dict ext_value;
  THREAT_EXTENSIONS : Py.dict ext_value
}.

Record World (E : Env) : Type := {
  net : Net E;
  traffic : list net_event;
  stdout : list console_write;
  stdin : list string
}.

(** The parsed command line ([vars(parser.parse_args())]). *)
Module Args.
Record t : Type := {
  query : option string;
  file_type : string;
  limit : Z;
  directory : option string;
  parallel : bool;
  available : bool;
  threats : bool;
  min_file_size : Z;
  max_file_size : Z;
  no_redirects : bool
}.
Definition set_directory (a : t) (d : option string) : t :=
  {| query := query a; file_type := file_type a; limit := limit a;
     directory := d; parallel := parallel a; available := available a;
     threats := threats a; min_file_size := min_file_size a;
     max_file_size := max_file_size a; no_redirects := no_redirects a |}.
End Args.

Definition TAB : string := String "009" EmptyString.
Definition NL : string := String "010" EmptyString.

(** Truth value of an optional string ([None] and [''] are false). *)
Definition truthy_str (s : option string) : bool :=
  match s with
  | None => false
  | Some EmptyString => false
  | Some _ => true
  end.

(** [str(x)] / ["{}".format(x)] of an optional string. *)
Definition str_of (s : option string) : string :=
  match s with
  | None => "None"
  | Some x => x
  end.

(** Truth value of what the [prompt] lambdas return ([True] or [None]). *)
Definition truthy (b : option bool) : bool :=
  match b with
  | Some true => true
  | _ => false
  end.

(** ** The module *)

Section Program.

Variable E : Env.

(** *** Computations: state of the world plus exceptions *)

Definition M (A : Type) : Type := World E -> result A * World E.

Definition ret {A} (a : A) : M A := fun w => (Val a, w).

Definition bind {A B} (c : M A) (k : A -> M B) : M B :=
  fun w =>
    match c w with
    | (Val a, w') => k a w'
    | (Raise e, w') => (Raise e, w')
    end.

Definition raise {A} (e : exn) : M A := fun w => (Raise e, w).

(** [try: c  except <any> as e: handler e]. *)
Definition try_except {A} (c : M A) (handler : exn -> M A) : M A :=
  fun w =>
    match c w with
    | (Val a, w') => (Val a, w')
    | (Raise e, w') => handler e w'
    end.

Notation "x <- c ;; k" := (bind c (fun x => k))
  (at level 61, c at next level, right associativity).
Notation "c ;;; k" := (bind c (fun _ => k))
  (at level 61, right associativity).

(** [for x in xs: s = body x s], the loop state threaded through. *)
Fixpoint for_each {A S} (xs : list A) (body : A -> S -> M S) (s : S) : M S :=
  match xs with
  | [] => ret s
  | x :: rest => s' <- body x s ;; for_each rest body s'
  end.

Definition log (ev : net_event) (w : World E) : World E :=
  {| net := net w; traffic := (traffic w ++ [ev])%list;
     stdout := stdout w; stdin := stdin w |}.

Definition with_net (w : World E) (n : Net E) : World E :=
  {| net := n; traffic := traffic w; stdout := stdout w; stdin := stdin w |}.

Definition write (c : console_write) (w : World E) : World E :=
  {| net := net w; traffic := traffic w;
     stdout := (stdout w ++ [c])%list; stdin := stdin w |}.

Definition with_stdin (w : World E) (lines : list string) : World E :=
  {| net := net w; traffic := traffic w; stdout := stdout w; stdin := lines |}.

(** Calling out to the network: the call is logged, the collaborator
    decides the outcome and the next state of the remote world. *)
Definition call {A} (ev : net_event) (f : Net E -> result A * Net E) : M A :=
  fun w =>
    let w1 := log ev w in
    let '(r, n) := f (net w1) in
    (r, with_net w1 n).

Definition print (text : string) : M unit :=
  fun w => (Val tt, write (Printed text) w).

Definition sys_exit {A} : M A := raise (SystemExit None).

Definition search_url : string := "https://www.google.com/search".

(** [s.get(search_url, params = params, headers = headers)]. *)
Definition s_get (url : string) (p : Params.t) (h : headers) : M response :=
  call (SearchRequest url p h) (session_get E url p h).

(** *** [scrape] *)

Fixpoint scrape_loop (results links : list string) : list string :=
  match results with
  | [] => links
  | href :: rest =>
      let link := Py.split_head "&" (Py.str_drop 7 href) in
      scrape_loop rest (links ++ [link])
  end.

Definition scrape (html : string) : list string :=
  scrape_loop (find_results E html) [].

(** [result.a['href']] on a result block: subscripting [None] is a
    [TypeError], an anchor without the attribute a [KeyError]. *)
Definition result_href (h3 : Soup.tag) : result string :=
  match Soup.a h3 with
  | None => Raise TypeError
  | Some anchor =>
      match Py.get (Soup.attrs anchor) "href" with
      | None => Raise KeyError
      | Some href => Val href
      end
  end.

(** The loop of [scrape] over the result blocks themselves; [scrape_loop]
    is this loop on blocks that all carry an anchor with an [href]. *)
Fixpoint scrape_results (results : list Soup.tag) (links : list string)
  : result (list string) :=
  match results with
  | [] => Val links
  | h3 :: rest =>
      match result_href h3 with
      | Raise e => Raise e
      | Val href =>
          let link := Py.split_head "&" (Py.str_drop 7 href) in
          scrape_results rest (links ++ [link])
      end
  end.

(** *** [get_links] *)

Definition get_links (limit : Z) (params : Params.t) (hdrs : headers)
  : M (list string) :=
  st <- for_each (Py.range 0 limit 10)
          (fun start_index (st : Params.t * list string) =>
             let params := Params.set_start (fst st) start_index in
             resp <- s_get search_url params hdrs ;;
             let page_links := scrape (content resp) in
             ret (params, (snd st ++ page_links)%list))
          (params, []) ;;
  ret (Py.slice_to limit (snd st)).

(** *** [get_url_nofollow] *)

(** As run by Python 3, where [urllib.error] is loaded with
    [urllib.request]: the first handler takes an [HTTPError], the bare
    [except] every other exception. *)

Definition get_url_nofollow (url : string) : M Z :=
  try_except
    (response <- call (Probe url) (urlopen E url) ;;
     let code := getcode response in
     ret code)
    (fun e =>
       match e with
       | HTTPError code => ret code
       | _ => ret 0
       end).

(** *** [validate_links] *)

(** The value stored per URL: the dict [{'code': ...}]. *)
Record probe_record : Type := { code : Z }.

Definition report_line (c : Z) (url : string) : string :=
  "code: " ++ Py.fmt_d c ++ TAB ++ "url: " ++ url.

(** Second loop: every link that passed the scheme filter is probed and
    the code is stored under the link. *)
Definition probe_links (valid_links : list string) : M (Py.dict probe_record) :=
  for_each valid_links
    (fun link urls =>
       c <- get_url_nofollow link ;;
       ret (Py.set urls link {| code := c |}))
    [].

(** Third loop: one report line per key, and the keys whose code is not 0. *)
Definition report_and_select (urls : Py.dict probe_record) : M (list string) :=
  for_each (Py.keys urls)
    (fun url available_urls =>
       match Py.get urls url with
       | None => raise KeyError
       | Some r =>
           print (report_line (code r) url) ;;;
           if negb (code r =? 0)
           then ret (available_urls ++ [url])%list
           else ret available_urls
       end)
    [].

Definition validate_links (links : list string) : M (list string) :=
  let valid_links := scheme_filter links in
  urls <- probe_links valid_links ;;
  available_urls <- report_and_select urls ;;
  ret available_urls.

(** *** [search] *)

Definition user_agent : string :=
  "Mozilla/5.0 (X11; Ubuntu; Linux x86_64; rv:53.0) " ++ TAB ++ TAB ++
  "Gecko/20100101 Firefox/53.0".

Definition search (query file_type : string) (limit : Z) : M (list string) :=
  let gquery := "filetype:" ++ file_type ++ " " ++ query in
  let params := {| Params.q := gquery; Params.start := 0 |} in
  let hdrs : headers := [("User Agent", user_agent)] in
  links <- get_links limit params hdrs ;;
  valid_links <- validate_links links ;;
  ret valid_links.

(** *** [check_threats] *)

(** The inner loop over a list-valued entry; its [break] leaves this loop
    only. *)
Fixpoint check_synonyms (file_type : string) (val : list string)
         (is_high_threat : bool) : bool :=
  match val with
  | [] => is_high_threat
  | el :: rest =>
      if String.eqb file_type el then true
      else check_synonyms file_type rest is_high_threat
  end.

(** The loop over the catalog's values; the [break] of the scalar branch
    leaves it. *)
Fixpoint check_values (file_type : string) (vals : list ext_value)
         (is_high_threat : bool) : bool :=
  match vals with
  | [] => is_high_threat
  | Synonyms val :: rest =>
      check_values file_type rest (check_synonyms file_type val is_high_threat)
  | Scalar val :: rest =>
      if String.eqb file_type val then true
      else check_values file_type rest is_high_threat
  end.

Definition check_threats (args : Args.t) : bool :=
  check_values (Args.file_type args) (Py.values (THREAT_EXTENSIONS E)) false.

(** *** [validate_args] *)

Definition missing_query_message : string :=
  NL ++ "Missing required query argument.".

Definition validate_args (args : Args.t) : M unit :=
  if negb (truthy_str (Args.query args))
  then print missing_query_message ;;; sys_exit
  else ret tt.

(** *** [download_content] *)

Definition downloading_message (args : Args.t) : string :=
  "Downloading " ++ Py.fmt_d (Args.limit args) ++ " " ++ Args.file_type args ++
  " files on topic " ++ str_of (Args.query args) ++
  " and saving to directory: " ++ str_of (Args.directory args).

Definition download_content (args : Args.t) : M unit :=
  args <- (if negb (truthy_str (Args.directory args))
           then match Args.query args with
                | None => raise AttributeError
                | Some qy =>
                    ret (Args.set_directory args
                           (Some (Py.replace_char " " "-" qy)))
                end
           else ret args) ;;
  print (downloading_message args) ;;;
  links <- search (str_of (Args.query args)) (Args.file_type args)
                  (Args.limit args) ;;
  let dir := str_of (Args.directory args) in
  let lo := Args.min_file_size args in
  let hi := Args.max_file_size args in
  let nr := Args.no_redirects args in
  if Args.parallel args
  then call (Download true links dir lo hi nr)
            (download_parallel E links dir lo hi nr)
  else call (Download false links dir lo hi nr)
            (download_series E links dir lo hi nr).

(** *** [show_filetypes] *)

Definition show_filetypes (extensions : Py.dict ext_value) : M unit :=
  for_each extensions
    (fun item (_ : unit) =>
       let val := match snd item with
                  | Synonyms xs => Py.join ", " xs
                  | Scalar x => x
                  end in
       print (Py.ljust 4 val ++ ": " ++ fst item))
    tt.

(** *** [main] and its [prompt] *)

Definition prompt_message : string :=
  "WARNING: Downloading this file type may expose you to a heightened security risk." ++
  NL ++ "Press 'y' to proceed or 'n' to exit".

Definition prompt_errormessage : string := "Error: Invalid option provided.".

(** The lambdas compare with [is], the identity of objects, not with [==]:
    the answer on a line read from standard input is the interpreter's. *)
Definition isvalid (x : string) : option bool :=
  if str_is E x "y" then Some true else None.

Definition isexit (x : string) : option bool :=
  if str_is E x "n" then Some true else None.

(** [while res is None: ...], one iteration per line left on standard
    input; [input] raises [EOFError] when there is none. *)
Fixpoint prompt_loop (message errormessage : string)
         (valid exit : string -> option bool)
         (lines : list string) (w : World E) : result string * World E :=
  match lines with
  | [] => (Raise EOFError,
           with_stdin (write (Prompted (message ++ ": ")) w) [])
  | res :: rest =>
      let w1 := with_stdin (write (Prompted (message ++ ": ")) w) rest in
      if truthy (exit res) then (Raise (SystemExit None), w1)
      else if negb (truthy (valid res))
           then prompt_loop message errormessage valid exit rest
                  (write (Printed errormessage) w1)
           else (Val res, w1)
  end.

Definition prompt (message errormessage : string)
           (valid exit : string -> option bool) : M string :=
  fun w => prompt_loop message errormessage valid exit (stdin w) w.

Definition main (args : Args.t) : M unit :=
  if Args.available args then show_filetypes (FILE_EXTENSIONS E)
  else if Args.threats args then show_filetypes (THREAT_EXTENSIONS E)
  else
    let high_threat := check_threats args in
    (if high_threat
     then _ <- prompt prompt_message prompt_errormessage isvalid isexit ;;
          ret tt
     else ret tt) ;;;
    validate_args args ;;;
    download_content args.

(** *** Reference descriptions the results are stated against *)

(** The pages a run of requests at the given start offsets brings back,
    scraped, in request order; the first request that raises ends it. *)
Fixpoint fetch_pages (gquery : string) (hdrs : headers) (starts : list Z)
         (n : Net E) : result (list (list string)) * Net E :=
  match starts with
  | [] => (Val [], n)
  | start :: rest =>
      match session_get E search_url
              {| Params.q := gquery; Params.start := start |} hdrs n with
      | (Val resp, n1) =>
          match fetch_pages gquery hdrs rest n1 with
          | (Val pages, n2) => (Val (scrape (content resp) :: pages), n2)
          | (Raise e, n2) => (Raise e, n2)
          end
      | (Raise e, n1) => (Raise e, n1)
      end
  end.

Definition search_request (gquery : string) (hdrs : headers) (start : Z)
  : net_event :=
  SearchRequest search_url {| Params.q := gquery; Params.start := start |} hdrs.

(** What [urlopen] answers to a probe, and the code the probe stands for. *)
Definition probe_code (r : result response) : Z :=
  match r with
  | Val resp => getcode resp
  | Raise (HTTPError c) => c
  | Raise _ => 0
  end.

(** The probes of a list of links, one after the other, each with the
    code it gave. *)
Fixpoint probe_trace (links : list string) (n : Net E) : list (string * Z) :=
  match links with
  | [] => []
  | link :: rest =>
      let '(r, n') := urlopen E link n in
      (link, probe_code r) :: probe_trace rest n'
  end.

Fixpoint net_after_probes (links : list string) (n : Net E) : Net E :=
  match links with
  | [] => n
  | link :: rest => net_after_probes rest (snd (urlopen E link n))
  end.

End Program.

Arguments s_get : clear implicits.
Arguments get_links : clear implicits.
Arguments get_url_nofollow : clear implicits.
Arguments probe_links : clear implicits.
Arguments report_and_select : clear implicits.
Arguments validate_links : clear implicits.
Arguments search : clear implicits.
Arguments validate_args : clear implicits.
Arguments download_content : clear implicits.
Arguments show_filetypes : clear implicits.
Arguments prompt_loop : clear implicits.
Arguments prompt : clear implicits.
Arguments main : clear implicits.

(** The code recorded for [url] in the dict the probes fill. *)
Definition recorded_code (urls : Py.dict probe_record) (url : string)
  : option Z :=
  option_map code (Py.get urls url).

Definition accepted (urls : Py.dict probe_record) (url : string) : bool :=
  match recorded_code urls url with
  | Some c => negb (c =? 0)
  | None => false
  end.

(** The report the third loop prints for an entry of the dict. *)
Definition report (entry : string * probe_record) : console_write :=
  Printed (report_line (code (snd entry)) (fst entry)).

(** Storing the outcome of one probe, as the second loop does. *)
Definition record_probe (urls : Py.dict probe_record) (p : string * Z)
  : Py.dict probe_record :=
  Py.set urls (fst p) {| code := snd p |}.

(** The code of the last probe of [url] in a trace of probes. *)
Fixpoint last_code (url : string) (trace : list (string * Z)) : option Z :=
  match trace with
  | [] => None
  | (u, c) :: rest =>
      match last_code url rest with
      | Some c' => Some c'
      | None => if String.eqb url u then Some c else None
      end
  end.

(** The distinct elements of a list in the order of their first occurrence. *)
Fixpoint first_occurrences (seen xs : list string) : list string :=
  match xs with
  | [] => []
  | x :: rest =>
      if existsb (String.eqb x) seen then first_occurrences seen rest
      else x :: first_occurrences (x :: seen) rest
  end.


(** The members of a catalog: the union of its values. *)
Definition catalog_member (ext : string) (catalog : Py.dict ext_value) : Prop :=
  exists v, In v (Py.values catalog) /\
            (v = Scalar ext \/ exists xs, v = Synonyms xs /\ In ext xs).

(** ** A small canned world, to run the module on concrete inputs *)

Module Mock.

(** The remote state counts the calls made so far. *)
Definition remote : Type := nat.

(** A results page holds ten organic results; its markup is stood for by
    the start offset it was asked with. *)
Definition hrefs (html : string) : list string :=
  map (fun i => "/url?q=http://example.org/" ++ html ++ "/" ++
                Py.fmt_d (Z.of_nat i) ++ ".pdf&sa=U&ved=0")
      (seq 0 10).

Definition get (url : string) (p : Params.t) (h : headers) (n : remote)
  : result response * remote :=
  (Val {| getcode := 200; content := Py.fmt_d (Params.start p) |}, S n).

Definition ok : result response := Val {| getcode := 200; content := "" |}.

Definition open (url : string) (n : remote) : result response * remote :=
  (if negb (Py.startswith "http://" url || Py.startswith "https://" url)
   then Raise ValueError
   else if String.eqb url "http://gone.example/b.pdf" then Raise (HTTPError 404)
   else if String.eqb url "http://down.example/c.pdf" then Raise URLError
   else if String.eqb url "http://flaky.example/a.pdf"
        then (if Nat.eqb n 0 then ok else Raise SocketTimeout)
   else ok,
   S n).

Definition download (links : list string) (dir : string) (lo hi : Z)
           (nr : bool) (n : remote) : result unit * remote :=
  (Val tt, S n).

Definition env : Env :=
  {| Net := remote;
     str_is := fun _ _ => false;
     session_get := get;
     urlopen := open;
     find_results := hrefs;
     download_series := download;
     download_parallel := download;
     FILE_EXTENSIONS :=
       [("Portable Document Format", Scalar "pdf");
        ("JPEG image", Synonyms ["jpg"; "jpeg"]);
        ("Windows executable", Scalar "exe")];
     THREAT_EXTENSIONS :=
       [("Windows executable", Scalar "exe");
        ("Script", Synonyms ["js"; "vbs"])] |}.

Definition world (lines : list string) : World env :=
  @Build_World env 0%nat [] [] lines.

Definition args (query : option string) (file_type : string) (limit : Z)
  : Args.t :=
  {| Args.query := query; Args.file_type := file_type; Args.limit := limit;
     Args.directory := None; Args.parallel := false;
     Args.available := false; Args.threats := false;
     Args.min_file_size := 0; Args.max_file_size := -1;
     Args.no_redirects := false |}.

Definition params : Params.t :=
  {| Params.q := "filetype:pdf algorithms"; Params.start := 0 |}.

(** A remote world that answers a probe by the URL alone. *)
Definition fixed_open (url : string) (n : remote) : result response * remote :=
  (if negb (Py.startswith "http://" url || Py.startswith "https://" url)
   then Raise ValueError
   else if String.eqb url "http://gone.example/b.pdf" then Raise (HTTPError 404)
   else if String.eqb url "http://down.example/c.pdf" then Raise URLError
   else ok,
   S n).

Definition fixed_env : Env :=
  {| Net := remote;
     str_is := fun _ _ => false;
     session_get := get;
     urlopen := fixed_open;
     find_results := hrefs;
     download_series := download;
     download_parallel := download;
     FILE_EXTENSIONS := FILE_EXTENSIONS env;
     THREAT_EXTENSIONS := THREAT_EXTENSIONS env |}.

(** A session whose request for the second page fails. *)
Definition failing_get (url : string) (p : Params.t) (h : headers) (n : remote)
  : result response * remote :=
  (if Params.start p =? 10 then Raise ConnectionError
   else Val {| getcode := 200; content := Py.fmt_d (Params.start p) |},
   S n).

Definition failing_env : Env :=
  {| Net := remote;
     str_is := fun _ _ => false;
     session_get := failing_get;
     urlopen := open;
     find_results := hrefs;
     download_series := download;
     download_parallel := download;
     FILE_EXTENSIONS := FILE_EXTENSIONS env;
     THREAT_EXTENSIONS := THREAT_EXTENSIONS env |}.

(** A results page whose anchors differ in wrapper and tail, one of them
    without any '&'. *)
Definition varied_hrefs (html : string) : list string :=
  ["/url?q=http://example.org/a.pdf&sa=U&ved=0ahUKEwi";
   "/url?q=https://example.net/b.pdf&usg=AOvVaw0";
   "/url?u=http://example.com/c.pdf"].

(** An interpreter that hands back the object of the literal for a line
    that reads as the literal. *)
Definition sharing_env : Env :=
  {| Net := remote;
     str_is := String.eqb;
     session_get := get;
     urlopen := open;
     find_results := varied_hrefs;
     download_series := download;
     download_parallel := download;
     FILE_EXTENSIONS := FILE_EXTENSIONS env;
     THREAT_EXTENSIONS := THREAT_EXTENSIONS env |}.

(** Result blocks: with an anchor and an [href], without an anchor, and
    with an anchor that has no [href]. *)
Definition block (href : string) : Soup.tag :=
  {| Soup.a := Some {| Soup.attrs := [("href", href)] |} |}.

Definition block_without_anchor : Soup.tag := {| Soup.a := None |}.

Definition block_without_href : Soup.tag :=
  {| Soup.a := Some {| Soup.attrs := [("class", "l")] |} |}.

(** A command line with a query and the listing flags as given. *)
Definition listing_args (available threats : bool) : Args.t :=
  {| Args.query := Some "algorithms"; Args.file_type := "exe";
     Args.limit := 10; Args.directory := None; Args.parallel := false;
     Args.available := available; Args.threats := threats;
     Args.min_file_size := 0; Args.max_file_size := -1;
     Args.no_redirects := false |}.

End Mock.

(** [c in s] for a character. *)
Fixpoint has_char (c : ascii) (s : string) : bool :=
  match s with
  | EmptyString => false
  | String a s' => Ascii.eqb a c || has_char c s'
  end.

(** An anchor destination made of a wrapper, a URL and, after a '&', a
    tail of tracking parameters, when there is one. *)
Definition wrapped (part : string * string * option string) : string :=
  fst (fst part) ++ snd (fst part) ++
  match snd part with
  | Some tail => String "&" tail
  | None => EmptyString
  end.

(** The line of the table of [show_filetypes] for an entry of a catalog. *)
Definition filetype_line (entry : string * ext_value) : console_write :=
  Printed (Py.ljust 4 (match snd entry with
                       | Synonyms xs => Py.join ", " xs
                       | Scalar x => x
                       end) ++ ": " ++ fst entry).

(** The directory [download_content] hands to the downloader. *)
Definition target_directory (args : Args.t) : string :=
  if truthy_str (Args.directory args) then str_of (Args.directory args)
  else Py.replace_char " " "-" (str_of (Args.query args)).

(** ** Facts about the string primitives *)

Lemma startswith_spec (p s : string) :
  Py.startswith p s = true <-> has_prefix p s.
Proof.
  revert s; induction p as [|a p IH]; intros s; simpl.
  - split; [intros _; exists s; reflexivity | reflexivity].
  - destruct s as [|b s].
    + split; [discriminate | intros [r Hr]; discriminate].
    + rewrite andb_true_iff, Ascii.eqb_eq, IH. split.
      * intros [-> [r ->]]. exists r. reflexivity.
      * intros [r Hr]. simpl in Hr. inversion Hr; subst.
        split; [reflexivity | exists r; reflexivity].
Qed.

Lemma str_in_spec (a s : string) :
  Py.str_in a s = true <-> is_substring a s.
Proof.
  induction s as [|c s IH].
  - simpl. rewrite orb_false_r, startswith_spec. split.
    + intros [r Hr]. exists EmptyString, r. exact Hr.
    + intros [pre [post H]]. destruct pre; simpl in H.
      * exists post. exact H.
      * discriminate.
  - simpl. rewrite orb_true_iff, startswith_spec, IH. split.
    + intros [[r Hr] | [pre [post H]]].
      * exists EmptyString, r. exact Hr.
      * exists (String c pre), post. simpl. now rewrite H.
    + intros [pre [post H]]. destruct pre as [|c' pre]; simpl in H.
      * left. exists post. exact H.
      * right. inversion H; subst. exists pre, post. reflexivity.
Qed.

Lemma scheme_ok_spec (link : string) :
  scheme_ok link = true <->
  is_substring (Py.str_take 7 link) "http://" \/
  is_substring (Py.str_take 8 link) "https://".
Proof.
  unfold scheme_ok. now rewrite orb_true_iff, !str_in_spec.
Qed.

Lemma scheme_filter_loop_filter (links acc : list string) :
  scheme_filter_loop links acc = (acc ++ filter scheme_ok links)%list.
Proof.
  revert acc; induction links as [|l links IH]; intros acc; simpl.
  - now rewrite app_nil_r.
  - destruct (scheme_ok l); rewrite IH; [|reflexivity].
    now rewrite <- app_assoc.
Qed.

Lemma scheme_filter_filter (links : list string) :
  scheme_filter links = filter scheme_ok links.
Proof. unfold scheme_filter. now rewrite scheme_filter_loop_filter. Qed.

(** C2. The scheme filter keeps a candidate exactly when its first seven
    characters occur inside the literal "http://" or its first eight inside
    "https://", keeps the candidates it keeps in their order and number, and
    this is membership, not a prefix test: "ttps://" is kept although it
    starts with neither literal. *)
Theorem scheme_filter_substring_membership :
  (forall (links : list string) (candidate : string),
      In candidate (scheme_filter links) <->
      In candidate links /\
      (is_substring (Py.str_take 7 candidate) "http://" \/
       is_substring (Py.str_take 8 candidate) "https://")) /\
  (forall links, scheme_filter links = filter scheme_ok links) /\
  (scheme_filter ["ttps://"; "ftp://x.org/a.pdf"; "http"] = ["ttps://"; "http"] /\
   ~ has_prefix "http://" "ttps://" /\ ~ has_prefix "https://" "ttps://").
Proof.
  split; [|split; [exact scheme_filter_filter|]].
  - intros links candidate.
    rewrite scheme_filter_filter, filter_In, scheme_ok_spec. reflexivity.
  - split; [reflexivity|].
    split; intros [rest H]; discriminate.
Qed.

(** ** Facts about lists and the dict *)

Lemma existsb_eqb_In (k : string) (ks : list string) :
  existsb (String.eqb k) ks = true <-> In k ks.
Proof.
  rewrite existsb_exists. split.
  - intros [x [Hin Heq]]. apply String.eqb_eq in Heq. now subst.
  - intros Hin. exists k. split; [exact Hin | apply String.eqb_refl].
Qed.

Lemma existsb_eqb_ext (k : string) (ks ks' : list string) :
  (forall x, In x ks <-> In x ks') ->
  existsb (String.eqb k) ks = existsb (String.eqb k) ks'.
Proof.
  intros H. apply eq_true_iff_eq. now rewrite !existsb_eqb_In.
Qed.

Lemma first_occurrences_ext (xs seen seen' : list string) :
  (forall x, In x seen <-> In x seen') ->
  first_occurrences seen xs = first_occurrences seen' xs.
Proof.
  revert seen seen'; induction xs as [|x xs IH]; intros seen seen' H; simpl.
  - reflexivity.
  - rewrite (existsb_eqb_ext x seen seen' H).
    destruct (existsb (String.eqb x) seen').
    + now apply IH.
    + f_equal. apply IH. intros y; simpl. now rewrite H.
Qed.

Lemma first_occurrences_In (xs seen : list string) (x : string) :
  In x (first_occurrences seen xs) <-> In x xs /\ ~ In x seen.
Proof.
  revert seen; induction xs as [|y xs IH]; intros seen; simpl.
  - tauto.
  - destruct (existsb (String.eqb y) seen) eqn:Ey.
    + apply existsb_eqb_In in Ey. rewrite IH. split.
      * tauto.
      * intros [[Heq | Hin] Hn]; [subst; tauto | tauto].
    + assert (Hy : ~ In y seen)
        by (rewrite <- existsb_eqb_In; congruence).
      simpl. rewrite IH. simpl. split.
      * intros [Heq | [Hin Hn]]; [subst; tauto | tauto].
      * intros [[Heq | Hin] Hn]; [tauto|].
        destruct (String.eqb_spec y x) as [Heq|Hne]; [tauto|]. right. tauto.
Qed.

Lemma first_occurrences_NoDup (xs seen : list string) :
  NoDup (first_occurrences seen xs).
Proof.
  revert seen; induction xs as [|y xs IH]; intros seen; simpl.
  - constructor.
  - destruct (existsb (String.eqb y) seen); [apply IH|].
    constructor; [|apply IH].
    rewrite first_occurrences_In. simpl. tauto.
Qed.






Section DictFacts.

Variable V : Type.
Implicit Types (d : Py.dict V) (k : string) (v : V).

Lemma get_set d k v k' :
  Py.get (Py.set d k v) k' = if String.eqb k' k then Some v else Py.get d k'.
Proof.
  induction d as [|[k0 v0] d IH]; simpl; [reflexivity|].
  destruct (String.eqb_spec k k0) as [<-|Hne]; simpl.
  - destruct (String.eqb k' k); reflexivity.
  - destruct (String.eqb_spec k' k0) as [->|Hne'].
    + destruct (String.eqb_spec k0 k); [congruence | reflexivity].
    + exact IH.
Qed.

Lemma keys_set d k v :
  Py.keys (Py.set d k v) =
  if existsb (String.eqb k) (Py.keys d) then Py.keys d
  else (Py.keys d ++ [k])%list.
Proof.
  induction d as [|[k0 v0] d IH]; simpl; [reflexivity|].
  destruct (String.eqb k k0); simpl; [reflexivity|].
  fold (Py.keys (Py.set d k v)). fold (Py.keys d). rewrite IH.
  destruct (existsb (String.eqb k) (Py.keys d)); reflexivity.
Qed.

Lemma get_In_keys d k : In k (Py.keys d) <-> exists v, Py.get d k = Some v.
Proof.
  induction d as [|[k0 v0] d IH]; simpl.
  - split; [tauto | intros [v H]; discriminate].
  - destruct (String.eqb_spec k k0) as [->|Hne].
    + split; [intros _; now exists v0 | tauto].
    + rewrite <- IH. split; [intros [H|H]; [congruence | exact H] | tauto].
Qed.

Lemma get_entry d (entry : string * V) :
  NoDup (Py.keys d) -> In entry d -> Py.get d (fst entry) = Some (snd entry).
Proof.
  induction d as [|[k0 v0] d IH]; simpl; [tauto|].
  intros Hnd [<- | Hin]; simpl.
  - now rewrite String.eqb_refl.
  - inversion Hnd as [|? ? Hnk Hnd']; subst.
    destruct (String.eqb_spec (fst entry) k0) as [Heq|Hne].
    + exfalso. apply Hnk. rewrite <- Heq. now apply in_map.
    + now apply IH.
Qed.

End DictFacts.

(** ** The dict the probes fill *)

Lemma keys_record_probes (trace : list (string * Z)) (urls : Py.dict probe_record) :
  Py.keys (fold_left record_probe trace urls) =
  (Py.keys urls ++ first_occurrences (Py.keys urls) (map fst trace))%list.
Proof.
  revert urls; induction trace as [|[u c] trace IH]; intros urls; simpl.
  - now rewrite app_nil_r.
  - rewrite IH. unfold record_probe. simpl. rewrite keys_set.
    destruct (existsb (String.eqb u) (Py.keys urls)); [reflexivity|].
    rewrite <- app_assoc. simpl. do 2 f_equal.
    apply first_occurrences_ext. intros x. rewrite in_app_iff. simpl. tauto.
Qed.

Lemma get_record_probes (trace : list (string * Z)) (urls : Py.dict probe_record)
      (url : string) :
  recorded_code (fold_left record_probe trace urls) url =
  match last_code url trace with
  | Some c => Some c
  | None => recorded_code urls url
  end.
Proof.
  revert urls; induction trace as [|[u c] trace IH]; intros urls; simpl.
  - reflexivity.
  - rewrite IH. destruct (last_code url trace); [reflexivity|].
    unfold recorded_code, record_probe. simpl. rewrite get_set.
    destruct (String.eqb url u); reflexivity.
Qed.

Lemma recorded_code_keys (urls : Py.dict probe_record) (url : string) :
  In url (Py.keys urls) <-> exists c, recorded_code urls url = Some c.
Proof.
  rewrite get_In_keys. unfold recorded_code. split.
  - intros [r H]. rewrite H. now exists (code r).
  - intros [c H]. destruct (Py.get urls url) as [r|]; [now exists r | discriminate].
Qed.

Lemma accepted_spec (urls : Py.dict probe_record) (url : string) :
  accepted urls url = true <->
  exists c, recorded_code urls url = Some c /\ c <> 0.
Proof.
  unfold accepted. destruct (recorded_code urls url) as [c|].
  - rewrite negb_true_iff, Z.eqb_neq. split.
    + intros H. now exists c.
    + intros [c' [Heq H]]. congruence.
  - split; [discriminate | intros [c [H _]]; discriminate].
Qed.

(** ** Running the module *)

Section Runs.

Variable E : Env.

Lemma world_eta (w : World E) :
  w = {| net := net w; traffic := traffic w;
         stdout := stdout w; stdin := stdin w |}.
Proof. now destruct w. Qed.

Lemma get_url_nofollow_run (url : string) (w : World E) :
  get_url_nofollow E url w =
  (Val (probe_code (fst (urlopen E url (net w)))),
   {| net := snd (urlopen E url (net w));
      traffic := (traffic w ++ [Probe url])%list;
      stdout := stdout w; stdin := stdin w |}).
Proof.
  unfold get_url_nofollow, try_except, bind, call, ret, log, with_net. simpl.
  destruct (urlopen E url (net w)) as [[resp|e] n]; simpl;
    [reflexivity | destruct e; reflexivity].
Qed.

Lemma probe_trace_links (links : list string) (n : Net E) :
  map fst (probe_trace E links n) = links.
Proof.
  revert n; induction links as [|l links IH]; intros n; simpl.
  - reflexivity.
  - destruct (urlopen E l n) as [r n']. simpl. now rewrite IH.
Qed.

Lemma probe_loop_run (links : list string) (urls : Py.dict probe_record)
      (w : World E) :
  for_each links
    (fun link urls =>
       bind (get_url_nofollow E link)
            (fun c => ret (Py.set urls link {| code := c |})))
    urls w =
  (Val (fold_left record_probe (probe_trace E links (net w)) urls),
   {| net := net_after_probes E links (net w);
      traffic := (traffic w ++ map Probe links)%list;
      stdout := stdout w; stdin := stdin w |}).
Proof.
  revert urls w; induction links as [|l links IH]; intros urls w; simpl.
  - unfold ret. rewrite app_nil_r. now rewrite <- world_eta.
  - unfold bind at 1. unfold bind at 1. rewrite get_url_nofollow_run.
    unfold ret at 1. rewrite IH. simpl.
    destruct (urlopen E l (net w)) as [r n']. simpl.
    now rewrite <- app_assoc.
Qed.

Lemma probe_links_run (links : list string) (w : World E) :
  probe_links E links w =
  (Val (fold_left record_probe (probe_trace E links (net w)) []),
   {| net := net_after_probes E links (net w);
      traffic := (traffic w ++ map Probe links)%list;
      stdout := stdout w; stdin := stdin w |}).
Proof. apply probe_loop_run. Qed.

Lemma select_loop_run (urls : Py.dict probe_record) (ks acc : list string)
      (w : World E) :
  (forall k, In k ks -> exists r, Py.get urls k = Some r) ->
  for_each ks
    (fun url available_urls =>
       match Py.get urls url with
       | None => raise KeyError
       | Some r =>
           bind (print (report_line (code r) url))
                (fun _ => if negb (code r =? 0)
                          then ret (available_urls ++ [url])%list
                          else ret available_urls)
       end)
    acc w =
  (Val (acc ++ filter (accepted urls) ks)%list,
   {| net := net w; traffic := traffic w;
      stdout := (stdout w ++
                 map (fun k => match Py.get urls k with
                               | Some r => report (k, r)
                               | None => Printed ""
                               end) ks)%list;
      stdin := stdin w |}).
Proof.
  revert acc w; induction ks as [|k ks IH]; intros acc w Hks; simpl.
  - unfold ret. rewrite !app_nil_r. now rewrite <- world_eta.
  - destruct (Hks k (or_introl eq_refl)) as [r Hr].
    unfold bind at 1. rewrite Hr. unfold bind, print, write. simpl.
    assert (Hacc : accepted urls k = negb (code r =? 0))
      by (unfold accepted, recorded_code; now rewrite Hr).
    rewrite Hacc.
    destruct (negb (code r =? 0)); unfold ret; rewrite IH; simpl;
      try (intros k' Hk'; apply Hks; now right);
      rewrite <- !app_assoc; reflexivity.
Qed.

Lemma report_and_select_run (urls : Py.dict probe_record) (w : World E) :
  NoDup (Py.keys urls) ->
  report_and_select E urls w =
  (Val (filter (accepted urls) (Py.keys urls)),
   {| net := net w; traffic := traffic w;
      stdout := (stdout w ++ map report urls)%list;
      stdin := stdin w |}).
Proof.
  intros Hnd. unfold report_and_select. rewrite select_loop_run.
  - simpl. do 3 f_equal. unfold Py.keys. rewrite map_map.
    apply map_ext_in. intros entry Hin.
    rewrite (get_entry urls entry Hnd Hin). now destruct entry.
  - intros k Hk. now apply get_In_keys.
Qed.

(** The dict [validate_links] fills for a list of links. *)
Lemma probed_keys (links : list string) (n : Net E) :
  Py.keys (fold_left record_probe (probe_trace E links n) []) =
  first_occurrences [] links.
Proof. rewrite keys_record_probes. simpl. now rewrite probe_trace_links. Qed.

Lemma validate_links_run (links : list string) (w : World E) :
  let urls :=
    fold_left record_probe (probe_trace E (scheme_filter links) (net w)) [] in
  validate_links E links w =
  (Val (filter (accepted urls) (Py.keys urls)),
   {| net := net_after_probes E (scheme_filter links) (net w);
      traffic := (traffic w ++ map Probe (scheme_filter links))%list;
      stdout := (stdout w ++ map report urls)%list;
      stdin := stdin w |}).
Proof.
  intros urls. unfold validate_links, bind.
  rewrite probe_links_run. fold urls.
  rewrite report_and_select_run.
  - reflexivity.
  - unfold urls. rewrite probed_keys. apply first_occurrences_NoDup.
Qed.

End Runs.

(** ** The liveness probe and the validator *)

(** C6. [get_url_nofollow] always returns a code and never raises: the
    status of the response when [urlopen] answers, the code of the
    [HTTPError] when it raises one, and 0 for every other exception. *)
Theorem get_url_nofollow_absorbs_failures (E : Env) (url : string) (w : World E) :
  exists c w',
    get_url_nofollow E url w = (Val c, w') /\
    match fst (urlopen E url (net w)) with
    | Val resp => c = getcode resp
    | Raise (HTTPError http_code) => c = http_code
    | Raise _ => c = 0
    end.
Proof.
  rewrite get_url_nofollow_run. eexists; eexists. split; [reflexivity|].
  destruct (fst (urlopen E url (net w))) as [resp|e]; simpl;
    [reflexivity | destruct e; reflexivity].
Qed.

(** C1. A link is in the result of [validate_links] exactly when the code
    recorded for it by the probes is not 0: links recorded with 404 or 500
    are in the result, links recorded with 0 are not. *)
Theorem validate_links_accepts_nonzero (E : Env) (links : list string)
        (w : World E) :
  exists urls w1 available w2,
    probe_links E (scheme_filter links) w = (Val urls, w1) /\
    validate_links E links w = (Val available, w2) /\
    (forall url, In url available <->
                 exists c, recorded_code urls url = Some c /\ c <> 0) /\
    (forall url, recorded_code urls url = Some 404 \/
                 recorded_code urls url = Some 500 -> In url available) /\
    (forall url, recorded_code urls url = Some 0 -> ~ In url available).
Proof.
  rewrite probe_links_run, validate_links_run.
  set (urls := fold_left record_probe _ []).
  exists urls. eexists. eexists. eexists.
  split; [reflexivity|]. split; [reflexivity|].
  assert (Hiff : forall url,
             In url (filter (accepted urls) (Py.keys urls)) <->
             exists c, recorded_code urls url = Some c /\ c <> 0).
  { intros url. rewrite filter_In, accepted_spec, recorded_code_keys. split.
    - tauto.
    - intros [c [Hc Hne]]. split; exists c; tauto. }
  split; [exact Hiff|]. split.
  - intros url [H|H]; apply Hiff; eexists; (split; [exact H | lia]).
  - intros url H Hin. apply Hiff in Hin. destruct Hin as [c [Hc Hne]].
    congruence.
Qed.


(** C10. Every occurrence of a link that passes the scheme filter is probed,
    the result holds no link twice, and a link is in the result exactly
    when the last probe of it gave a code other than 0. *)
Theorem validate_links_duplicates (E : Env) (links : list string) (w : World E) :
  exists available w',
    validate_links E links w = (Val available, w') /\
    traffic w' = (traffic w ++ map Probe (scheme_filter links))%list /\
    NoDup available /\
    forall url,
      In url available <->
      exists c,
        last_code url (probe_trace E (scheme_filter links) (net w)) = Some c /\
        c <> 0.
Proof.
  rewrite validate_links_run.
  set (urls := fold_left record_probe _ []).
  eexists. eexists. split; [reflexivity|]. simpl. split; [reflexivity|].
  assert (Hkeys : Py.keys urls = first_occurrences [] (scheme_filter links))
    by apply probed_keys.
  split.
  - apply NoDup_filter. rewrite Hkeys. apply first_occurrences_NoDup.
  - intros url. rewrite filter_In, accepted_spec, recorded_code_keys.
    unfold urls. rewrite get_record_probes.
    destruct (last_code url _) as [c|]; simpl.
    + split.
      * intros [_ H]. exact H.
      * intros H. split; [now exists c | exact H].
    + unfold recorded_code; simpl. split.
      * intros [[c H] _]. discriminate.
      * intros [c [H _]]. discriminate.
Qed.

(** C5, at the link "ttps://": it starts with neither "http://" nor
    "https://", yet it passes the scheme filter, is probed and is recorded. *)
Theorem validate_links_probes_non_url (E : Env) (w : World E) :
  exists urls w',
    probe_links E (scheme_filter ["ttps://"]) w = (Val urls, w') /\
    Py.keys urls = ["ttps://"] /\
    traffic w' = (traffic w ++ [Probe "ttps://"])%list /\
    ~ has_prefix "http://" "ttps://" /\
    ~ has_prefix "https://" "ttps://".
Proof.
  rewrite probe_links_run. eexists. eexists.
  split; [reflexivity|]. split.
  - rewrite probed_keys. reflexivity.
  - split; [reflexivity|]. split; intros [rest H]; discriminate.
Qed.

(** ** Paging *)

Lemma range_0_10 (limit : Z) :
  Py.range 0 limit 10 =
  map (fun i => 10 * Z.of_nat i) (seq 0 (Z.to_nat ((limit + 9) / 10))).
Proof.
  unfold Py.range. replace (limit - 0 + 10 - 1) with (limit + 9) by lia.
  apply map_ext. intros i. lia.
Qed.






Section Paging.

Variable E : Env.




Lemma s_get_run (url : string) (p : Params.t) (hdrs : headers) (w : World E) :
  s_get E url p hdrs w =
  (fst (session_get E url p hdrs (net w)),
   {| net := snd (session_get E url p hdrs (net w));
      traffic := (traffic w ++ [SearchRequest url p hdrs])%list;
      stdout := stdout w; stdin := stdin w |}).
Proof.
  unfold s_get, call, log, with_net. simpl.
  now destruct (session_get E url p hdrs (net w)).
Qed.

(** Whatever the requests give, the loop asks for a leading part of the
    start offsets, in order, and for nothing else. *)
Lemma paging_loop_traffic (hdrs : headers) (starts : list Z)
      (params : Params.t) (links : list string) (w : World E) :
  exists issued rest,
    starts = (issued ++ rest)%list /\
    traffic (snd (for_each starts
      (fun start_index (st : Params.t * list string) =>
         bind (s_get E search_url (Params.set_start (fst st) start_index) hdrs)
              (fun resp =>
                 ret (Params.set_start (fst st) start_index,
                      (snd st ++ scrape E (content resp))%list)))
      (params, links) w)) =
    (traffic w ++ map (search_request (Params.q params) hdrs) issued)%list.
Proof.
  revert params links w;
    induction starts as [|s starts IH]; intros params links w; simpl.
  - exists [], []. split; [reflexivity|]. simpl. now rewrite app_nil_r.
  - unfold bind at 1. unfold bind at 1. rewrite s_get_run.
    destruct (session_get E search_url _ hdrs (net w)) as [[resp|e] n1];
      simpl.
    + unfold ret at 1.
      match goal with
      | |- context [for_each starts ?b (?p, ?l) ?w1] =>
          destruct (IH p l w1) as [issued [rest [Hs Ht]]]
      end.
      exists (s :: issued), rest. split; [simpl; now rewrite Hs|].
      etransitivity; [exact Ht|]. simpl. rewrite <- app_assoc. reflexivity.
    + exists [s], starts. split; reflexivity.
Qed.

Lemma get_links_requests_prefix (limit : Z) (params : Params.t)
      (hdrs : headers) (w : World E) :
  exists issued rest,
    Py.range 0 limit 10 = (issued ++ rest)%list /\
    traffic (snd (get_links E limit params hdrs w)) =
    (traffic w ++ map (search_request (Params.q params) hdrs) issued)%list.
Proof.
  destruct (paging_loop_traffic hdrs (Py.range 0 limit 10) params [] w)
    as [issued [rest [Hs Ht]]].
  exists issued, rest. split; [exact Hs|].
  unfold get_links. unfold bind at 1.
  destruct (for_each (Py.range 0 limit 10) _ (params, []) w) as [[st|e] w1];
    exact Ht.
Qed.

End Paging.




(** ** The threat classifier *)

Lemma check_synonyms_true (file_type : string) (val : list string) (flag : bool) :
  check_synonyms file_type val flag = true <-> flag = true \/ In file_type val.
Proof.
  induction val as [|el val IH]; simpl.
  - tauto.
  - destruct (String.eqb_spec file_type el) as [->|Hne].
    + tauto.
    + rewrite IH. split; [tauto|]. intros [H|[H|H]]; [tauto | congruence | tauto].
Qed.

Lemma check_values_true (file_type : string) (vals : list ext_value) (flag : bool) :
  check_values file_type vals flag = true <->
  flag = true \/
  exists v, In v vals /\
            (v = Scalar file_type \/
             exists xs, v = Synonyms xs /\ In file_type xs).
Proof.
  revert flag; induction vals as [|v vals IH]; intros flag; simpl.
  - split; [tauto | intros [H | [v [[] _]]]; exact H].
  - destruct v as [ext|exts].
    + destruct (String.eqb_spec file_type ext) as [->|Hne].
      * split; [intros _ | reflexivity]. right. exists (Scalar ext). tauto.
      * rewrite IH. split.
        -- intros [H | [v [Hin Hv]]]; [tauto|]. right. exists v. tauto.
        -- intros [H | [v [[<- | Hin] Hv]]]; [tauto | | right; exists v; tauto].
           destruct Hv as [Hv | [xs [Hv _]]]; [|discriminate].
           inversion Hv. congruence.
    + rewrite IH, check_synonyms_true. split.
      * intros [[H | H] | [v [Hin Hv]]]; [tauto | | right; exists v; tauto].
        right. exists (Synonyms exts). split; [tauto|]. right. now exists exts.
      * intros [H | [v [[<- | Hin] Hv]]]; [tauto | | right; exists v; tauto].
        destruct Hv as [Hv | [xs [Hv Hin]]]; [discriminate|].
        inversion Hv; subst. tauto.
Qed.

(** C8. [check_threats] answers true exactly when the file type is a value
    of the threat catalog or an element of one of its list values; the
    answer is a function of the file type and of the catalog alone. *)
Theorem check_threats_catalog_membership :
  (forall (E : Env) (args : Args.t),
      check_threats E args = true <->
      catalog_member (Args.file_type args) (THREAT_EXTENSIONS E)) /\
  (exists f : string -> Py.dict ext_value -> bool,
      forall (E : Env) (args : Args.t),
        check_threats E args = f (Args.file_type args) (THREAT_EXTENSIONS E)).
Proof.
  split.
  - intros E args. unfold check_threats, catalog_member.
    rewrite check_values_true. split.
    + intros [H | H]; [discriminate | exact H].
    + intros H. now right.
  - exists (fun file_type catalog =>
              check_values file_type (Py.values catalog) false).
    reflexivity.
Qed.

(** ** The command line without a query *)

Section MissingQuery.

Variable E : Env.

Lemma prompt_loop_outcome (message errormessage : string)
      (lines : list string) (w : World E) :
  let run := prompt_loop E message errormessage (isvalid E) (isexit E) lines w in
  traffic (snd run) = traffic w /\
  net (snd run) = net w /\
  ((exists res, fst run = Val res) \/ fst run = Raise (SystemExit None) \/
   fst run = Raise EOFError).
Proof.
  revert w; induction lines as [|res lines IH]; intros w; simpl.
  - tauto.
  - destruct (truthy (isexit E res)); simpl; [tauto|].
    destruct (truthy (isvalid E res)); simpl.
    + split; [reflexivity|]. split; [reflexivity|]. left. now exists res.
    + pose proof (IH (write (Printed errormessage)
                        (with_stdin (write (Prompted (message ++ ": ")) w)
                                    lines))) as Hrest.
      simpl in Hrest. exact Hrest.
Qed.

(** Whatever is on standard input, the first thing [prompt] writes is its
    question. *)
Lemma prompt_loop_asks_first (message errormessage : string)
      (valid exit : string -> option bool) (lines : list string) (w : World E) :
  exists later,
    stdout (snd (prompt_loop E message errormessage valid exit lines w)) =
    (stdout w ++ Prompted (message ++ ": ") :: later)%list.
Proof.
  revert w; induction lines as [|res lines IH]; intros w; simpl.
  - now exists [].
  - destruct (truthy (exit res)); simpl; [now exists []|].
    destruct (truthy (valid res)); simpl; [now exists []|].
    destruct (IH (write (Printed errormessage)
                    (with_stdin (write (Prompted (message ++ ": ")) w) lines)))
      as [later Hlater].
    exists (Printed errormessage :: Prompted (message ++ ": ") :: later).
    rewrite Hlater. simpl. rewrite <- !app_assoc. reflexivity.
Qed.

Lemma validate_args_missing (args : Args.t) (w : World E) :
  truthy_str (Args.query args) = false ->
  validate_args E args w =
  (Raise (SystemExit None), write (Printed missing_query_message) w).
Proof. intros H. unfold validate_args. now rewrite H. Qed.

Lemma main_missing_query_run (args : Args.t) (w : World E) :
  truthy_str (Args.query args) = false ->
  Args.available args = false ->
  Args.threats args = false ->
  main E args w =
  if check_threats E args
  then match prompt E prompt_message prompt_errormessage (isvalid E) (isexit E)
               w with
       | (Val _, w1) =>
           (Raise (SystemExit None), write (Printed missing_query_message) w1)
       | (Raise e, w1) => (Raise e, w1)
       end
  else (Raise (SystemExit None), write (Printed missing_query_message) w).
Proof.
  intros Hq Ha Ht. unfold main. rewrite Ha, Ht.
  destruct (check_threats E args).
  - unfold bind, ret.
    destruct (prompt E prompt_message prompt_errormessage (isvalid E)
                (isexit E) w) as [[res|e] w1]; [|reflexivity].
    now rewrite validate_args_missing.
  - unfold bind, ret. now rewrite validate_args_missing.
Qed.

End MissingQuery.

(** C3, as the code has it. With no query and neither [--available] nor
    [--threats], [main] does no network I/O and does not return.  For a file
    type outside the threat catalog it prints the missing-query message and
    leaves through [sys.exit()] without an argument, which is exit status 0.
    For a file type of the catalog the confirmation prompt comes first: its
    question is the first thing written, and [main] ends as the prompt does
    when the prompt raises ([sys.exit()] at a line it takes for 'n', status
    0; [EOFError] when standard input runs out, status 1), and with the
    missing-query message and [sys.exit()], status 0, when the prompt
    returns.  Which lines the prompt takes for 'y' and 'n' is the
    interpreter's answer to the identity tests of its lambdas. *)
Theorem main_missing_query_exits (E : Env) (args : Args.t) (w : World E) :
  truthy_str (Args.query args) = false ->
  Args.available args = false ->
  Args.threats args = false ->
  let r := fst (main E args w) in
  let w' := snd (main E args w) in
  traffic w' = traffic w /\
  net w' = net w /\
  (r = Raise (SystemExit None) \/
   check_threats E args = true /\ r = Raise EOFError) /\
  (check_threats E args = false ->
   r = Raise (SystemExit None) /\
   exit_status r = 0 /\
   stdout w' = (stdout w ++ [Printed missing_query_message])%list) /\
  (check_threats E args = true ->
   (exists later,
       stdout w' = (stdout w ++ Prompted (prompt_message ++ ": ") :: later)%list) /\
   main E args w =
     match prompt E prompt_message prompt_errormessage (isvalid E) (isexit E)
                  w with
     | (Val _, w1) =>
         (Raise (SystemExit None), write (Printed missing_query_message) w1)
     | (Raise e, w1) => (Raise e, w1)
     end /\
   (exit_status r = 0 \/ r = Raise EOFError /\ exit_status r = 1)).
Proof.
  intros Hq Ha Ht. rewrite (@main_missing_query_run E args w Hq Ha Ht).
  destruct (check_threats E args) eqn:Hthreat.
  - unfold prompt.
    destruct (prompt_loop_outcome prompt_message prompt_errormessage
                (stdin w) w) as [Htr [Hnet Hout]].
    destruct (prompt_loop_asks_first prompt_message prompt_errormessage
                (isvalid E) (isexit E) (stdin w) w) as [later Hlater].
    destruct (prompt_loop E prompt_message prompt_errormessage (isvalid E)
                (isexit E) (stdin w) w) as [r1 w1].
    simpl in Htr, Hnet, Hout, Hlater.
    destruct Hout as [[res ->] | [-> | ->]]; simpl;
      (split; [exact Htr|]); (split; [exact Hnet|]).
    + split; [left; reflexivity|]. split; [discriminate|]. intros _.
      split; [|split; [reflexivity | left; reflexivity]].
      exists (later ++ [Printed missing_query_message])%list.
      rewrite Hlater. now rewrite <- app_assoc.
    + split; [left; reflexivity|]. split; [discriminate|]. intros _.
      split; [now exists later|]. split; [reflexivity | left; reflexivity].
    + split; [right; split; reflexivity|]. split; [discriminate|]. intros _.
      split; [now exists later|].
      split; [reflexivity | right; split; reflexivity].
  - simpl. split; [reflexivity|]. split; [reflexivity|].
    split; [left; reflexivity|]. split; [|discriminate]. intros _.
    split; [reflexivity|]. split; reflexivity.
Qed.

(** ** The module at concrete inputs *)

(** Three links probed with 200, no answer and 404: three report lines, the
    first and the third link accepted. *)
Example validate_links_three_links :
  let run := validate_links Mock.env
               ["http://example.org/a.pdf"; "http://down.example/c.pdf";
                "http://gone.example/b.pdf"] (Mock.world []) in
  fst run = Val ["http://example.org/a.pdf"; "http://gone.example/b.pdf"] /\
  stdout (snd run) =
    [Printed ("code: 200" ++ TAB ++ "url: http://example.org/a.pdf");
     Printed ("code: 0" ++ TAB ++ "url: http://down.example/c.pdf");
     Printed ("code: 404" ++ TAB ++ "url: http://gone.example/b.pdf")].
Proof. split; reflexivity. Qed.

(** A link given twice is probed twice; here the second probe fails, and the
    link is reported once, with code 0, and left out. *)
Example validate_links_same_link_twice :
  let run := validate_links Mock.env
               ["http://flaky.example/a.pdf"; "http://flaky.example/a.pdf"]
               (Mock.world []) in
  fst run = Val [] /\
  traffic (snd run) =
    [Probe "http://flaky.example/a.pdf"; Probe "http://flaky.example/a.pdf"] /\
  stdout (snd run) =
    [Printed ("code: 0" ++ TAB ++ "url: http://flaky.example/a.pdf")].
Proof. repeat split; reflexivity. Qed.

Example scrape_strips_wrapper :
  scrape_loop ["/url?q=http://example.org/a.pdf&sa=U&ved=0"] [] =
  ["http://example.org/a.pdf"].
Proof. reflexivity. Qed.

Example check_threats_examples :
  check_threats Mock.env (Mock.args None "vbs" 10) = true /\
  check_threats Mock.env (Mock.args None "exe" 10) = true /\
  check_threats Mock.env (Mock.args None "pdf" 10) = false.
Proof. repeat split; reflexivity. Qed.

(** C3 at a concrete command line: no query, file type [pdf], no flags.  The
    message is printed, nothing goes to the network, and the exit status is
    0, not a nonzero one. *)
Lemma main_missing_query_exit_status_zero :
  fst (main Mock.env (Mock.args None "pdf" 10) (Mock.world []))
  = Raise (SystemExit None) /\
  stdout (snd (main Mock.env (Mock.args None "pdf" 10) (Mock.world [])))
  = [Printed missing_query_message] /\
  traffic (snd (main Mock.env (Mock.args None "pdf" 10) (Mock.world []))) = [] /\
  ~ (exit_status (fst (main Mock.env (Mock.args None "pdf" 10) (Mock.world [])))
     <> 0).
Proof.
  split; [reflexivity|]. split; [reflexivity|]. split; [reflexivity|].
  intros H. apply H. reflexivity.
Qed.

Lemma main_missing_query_exits_witness :
  truthy_str (Args.query (Mock.args None "pdf" 10)) = false /\
  Args.available (Mock.args None "pdf" 10) = false /\
  Args.threats (Mock.args None "pdf" 10) = false /\
  traffic (snd (main Mock.env (Mock.args None "pdf" 10) (Mock.world ["y"])))
  = traffic (Mock.world ["y"]) /\
  fst (main Mock.env (Mock.args None "pdf" 10) (Mock.world ["y"]))
  = Raise (SystemExit None).
Proof.
  split; [reflexivity|]. split; [reflexivity|]. split; [reflexivity|].
  destruct (@main_missing_query_exits Mock.env (Mock.args None "pdf" 10)
              (Mock.world ["y"]) eq_refl eq_refl eq_refl)
    as [Htraffic [_ [_ [Hexit _]]]].
  split; [exact Htraffic | exact (proj1 (Hexit eq_refl))].
Defined.

(** The same command line with the file type [exe] of the threat catalog and
    a line 'y' on standard input, on an interpreter that builds a fresh
    string for the line: the question is asked, the line is turned down,
    the question is asked again and the input has ended. *)
Example main_missing_query_threat_run :
  main Mock.env (Mock.args None "exe" 10) (Mock.world ["y"]) =
  (Raise EOFError,
   @Build_World Mock.env 0%nat []
     [Prompted (prompt_message ++ ": "); Printed prompt_errormessage;
      Prompted (prompt_message ++ ": ")] []) /\
  exit_status (fst (main Mock.env (Mock.args None "exe" 10) (Mock.world ["y"])))
  = 1.
Proof. split; reflexivity. Qed.




(** ** Further properties of the module *)

(** *** [scrape] *)

Lemma scrape_loop_map (results links : list string) :
  scrape_loop results links =
  (links ++ map (fun href => Py.split_head "&" (Py.str_drop 7 href)) results)%list.
Proof.
  revert links; induction results as [|href results IH]; intros links; simpl.
  - now rewrite app_nil_r.
  - rewrite IH. now rewrite <- app_assoc.
Qed.

Lemma split_head_no_sep (sep : ascii) (s : string) :
  has_char sep (Py.split_head sep s) = false.
Proof.
  induction s as [|c s IH]; simpl; [reflexivity|].
  destruct (Ascii.eqb c sep) eqn:Ec; simpl; [reflexivity|].
  now rewrite Ec, IH.
Qed.

Lemma split_head_stops (sep : ascii) (s tail : string) :
  has_char sep s = false ->
  Py.split_head sep (s ++ String sep tail) = s.
Proof.
  induction s as [|c s IH]; simpl.
  - intros _. now rewrite Ascii.eqb_refl.
  - intros H. apply orb_false_iff in H. destruct H as [Hc Hs].
    rewrite Hc. f_equal. now apply IH.
Qed.

Lemma str_drop_app (wrapper s : string) :
  Py.str_drop (String.length wrapper) (wrapper ++ s) = s.
Proof. induction wrapper as [|c wr IH]; simpl; [now destruct s | exact IH]. Qed.

Lemma split_head_whole (sep : ascii) (s : string) :
  has_char sep s = false -> Py.split_head sep s = s.
Proof.
  induction s as [|c s IH]; simpl; [reflexivity|].
  intros H. apply orb_false_iff in H. destruct H as [Hc Hs].
  rewrite Hc. f_equal. now apply IH.
Qed.

Lemma str_app_empty (s : string) : s ++ EmptyString = s.
Proof. induction s as [|c s IH]; simpl; [reflexivity | now rewrite IH]. Qed.

Lemma scrape_results_run (results : list Soup.tag) (hrefs links : list string) :
  map result_href results = map Val hrefs ->
  scrape_results results links = Val (scrape_loop hrefs links).
Proof.
  revert hrefs links; induction results as [|h3 results IH];
    intros [|href hrefs] links H; simpl in *; try discriminate.
  - reflexivity.
  - inversion H as [[Hh Hrest]]. rewrite Hh. now apply IH.
Qed.

Lemma scrape_results_fails (good : list Soup.tag) (bad : Soup.tag)
      (rest : list Soup.tag) (hrefs links : list string) (e : exn) :
  map result_href good = map Val hrefs ->
  result_href bad = Raise e ->
  scrape_results (good ++ bad :: rest) links = Raise e.
Proof.
  revert hrefs links; induction good as [|h3 good IH];
    intros [|href hrefs] links H Hbad; simpl in *; try discriminate.
  - now rewrite Hbad.
  - inversion H as [[Hh Hrest]]. rewrite Hh. now apply (IH hrefs).
Qed.

(** X1. The loop of [scrape] over the result blocks.  When every block has
    an anchor with an [href], it gives one link per block, in document order
    and none holding a '&'.  At the first block without an anchor it raises
    [TypeError], at the first anchor without an [href] it raises [KeyError],
    and it gives no links then. *)
Theorem scrape_results_one_link_per_block :
  (forall results hrefs,
      map result_href results = map Val hrefs ->
      exists links,
        scrape_results results [] = Val links /\
        links = scrape_loop hrefs [] /\
        List.length links = List.length results /\
        Forall (fun link => has_char "&" link = false) links) /\
  (forall good bad rest hrefs e,
      map result_href good = map Val hrefs ->
      result_href bad = Raise e ->
      scrape_results (good ++ bad :: rest) [] = Raise e /\
      (e = TypeError /\ Soup.a bad = None \/
       e = KeyError /\
       exists anchor, Soup.a bad = Some anchor /\
                      Py.get (Soup.attrs anchor) "href" = None)).
Proof.
  split.
  - intros results hrefs H. exists (scrape_loop hrefs []).
    split; [now apply scrape_results_run|]. split; [reflexivity|].
    rewrite scrape_loop_map. simpl. split.
    + rewrite length_map. rewrite <- (length_map result_href results), H.
      now rewrite length_map.
    + apply Forall_forall. intros link Hin. apply in_map_iff in Hin.
      destruct Hin as [href [<- _]]. apply split_head_no_sep.
  - intros good bad rest hrefs e H Hbad.
    split; [now apply (scrape_results_fails good bad rest hrefs [])|].
    unfold result_href in Hbad. destruct (Soup.a bad) as [anchor|].
    + destruct (Py.get (Soup.attrs anchor) "href") as [href|] eqn:Hget;
        [discriminate|].
      right. split; [congruence|]. now exists anchor.
    + left. split; [congruence | reflexivity].
Qed.

(** X2. [scrape] undoes the redirect wrapper: when every anchor of the page
    is a seven-character wrapper of its own, a URL without '&' and, possibly,
    a tail of its own after a '&', the links are the URLs, in order. *)
Theorem scrape_unwraps_redirects (E : Env) (html : string)
        (parts : list (string * string * option string)) :
  forallb (fun part => Nat.eqb (String.length (fst (fst part))) 7 &&
                       negb (has_char "&" (snd (fst part)))) parts = true ->
  find_results E html = map wrapped parts ->
  scrape E html = map (fun part => snd (fst part)) parts.
Proof.
  intros Hparts Hpage. unfold scrape.
  rewrite scrape_loop_map, Hpage, map_map. rewrite app_nil_l.
  apply map_ext_in. intros [[wrapper url] tail] Hin.
  rewrite forallb_forall in Hparts. specialize (Hparts _ Hin).
  simpl in Hparts. apply andb_true_iff in Hparts.
  destruct Hparts as [Hlen Hclean].
  apply Nat.eqb_eq in Hlen. apply negb_true_iff in Hclean.
  unfold wrapped. cbn [fst snd]. rewrite <- Hlen, str_drop_app.
  destruct tail as [tail|].
  - now apply split_head_stops.
  - rewrite str_app_empty. now apply split_head_whole.
Qed.

(** *** The scheme filter on real URLs *)

Lemma str_length_app (a b : string) :
  String.length (a ++ b) = (String.length a + String.length b)%nat.
Proof. induction a as [|c a IH]; simpl; [reflexivity | now rewrite IH]. Qed.

Lemma str_take_drop (n : nat) (s : string) :
  s = Py.str_take n s ++ Py.str_drop n s.
Proof.
  revert s; induction n as [|n IH]; intros [|c s]; simpl; try reflexivity.
  f_equal. apply IH.
Qed.

Lemma str_take_length (n : nat) (s : string) :
  (n <= String.length s)%nat -> String.length (Py.str_take n s) = n.
Proof.
  revert s; induction n as [|n IH]; intros [|c s]; simpl; try lia.
  intros H. f_equal. apply IH. lia.
Qed.

Lemma str_take_app (p rest : string) :
  Py.str_take (String.length p) (p ++ rest) = p.
Proof. induction p as [|c p IH]; simpl; [now destruct rest | now rewrite IH]. Qed.

Lemma is_substring_whole (a b : string) :
  is_substring a b -> String.length a = String.length b -> a = b.
Proof.
  intros [pre [post Hb]] Hlen. subst b.
  rewrite !str_length_app in Hlen.
  destruct pre; simpl in Hlen; [|lia].
  destruct post; simpl in Hlen; [|lia].
  simpl. clear Hlen. induction a; simpl; congruence.
Qed.

Lemma scheme_ok_of_prefix (link : string) :
  has_prefix "http://" link \/ has_prefix "https://" link ->
  scheme_ok link = true.
Proof.
  unfold scheme_ok. intros [[rest ->] | [rest ->]].
  - change (Py.str_take 7 ("http://" ++ rest))
      with (Py.str_take (String.length "http://") ("http://" ++ rest)).
    now rewrite str_take_app.
  - change (Py.str_take 8 ("https://" ++ rest))
      with (Py.str_take (String.length "https://") ("https://" ++ rest)).
    rewrite str_take_app. apply orb_true_r.
Qed.

Lemma prefix_of_scheme_ok (link : string) :
  (8 <= String.length link)%nat ->
  scheme_ok link = true ->
  has_prefix "http://" link \/ has_prefix "https://" link.
Proof.
  intros Hlen. rewrite scheme_ok_spec. intros [H | H].
  - left. apply is_substring_whole in H;
      [|rewrite str_take_length; [reflexivity | lia]].
    exists (Py.str_drop 7 link). rewrite <- H. apply str_take_drop.
  - right. apply is_substring_whole in H;
      [|rewrite str_take_length; [reflexivity | lia]].
    exists (Py.str_drop 8 link). rewrite <- H. apply str_take_drop.
Qed.

(** X3. The scheme filter has no false negatives: a link that begins with
    "http://" or with "https://" passes it. *)
Theorem scheme_filter_keeps_urls (links : list string) (link : string) :
  In link links ->
  has_prefix "http://" link \/ has_prefix "https://" link ->
  In link (scheme_filter links).
Proof.
  intros Hin Hpre. rewrite scheme_filter_filter, filter_In.
  split; [exact Hin | now apply scheme_ok_of_prefix].
Qed.

(** X4. On links of eight characters or more the scheme filter is a prefix
    test: such a link passes exactly when it begins with "http://" or with
    "https://". *)
Theorem scheme_ok_long_links (link : string) :
  (8 <= String.length link)%nat ->
  (scheme_ok link = true <->
   has_prefix "http://" link \/ has_prefix "https://" link).
Proof.
  intros Hlen. split;
    [now apply prefix_of_scheme_ok | apply scheme_ok_of_prefix].
Qed.

Lemma scrape_results_one_link_per_block_witness :
  scrape_results
    [Mock.block "/url?q=http://example.org/a.pdf&sa=U"; Mock.block_without_anchor;
     Mock.block "/url?q=http://example.org/b.pdf&sa=U"] []
  = Raise TypeError /\
  scrape_results
    [Mock.block "/url?q=http://example.org/a.pdf&sa=U"; Mock.block_without_href] []
  = Raise KeyError /\
  exists links,
    scrape_results
      [Mock.block "/url?q=http://example.org/a.pdf&sa=U";
       Mock.block "/url?q=http://example.org/b.pdf&sa=U"] []
    = Val links /\
    links = ["http://example.org/a.pdf"; "http://example.org/b.pdf"].
Proof.
  destruct scrape_results_one_link_per_block as [Hgood Hbad].
  split; [|split].
  - exact (proj1 (Hbad [Mock.block "/url?q=http://example.org/a.pdf&sa=U"]
                       Mock.block_without_anchor
                       [Mock.block "/url?q=http://example.org/b.pdf&sa=U"]
                       ["/url?q=http://example.org/a.pdf&sa=U"] TypeError
                       eq_refl eq_refl)).
  - exact (proj1 (Hbad [Mock.block "/url?q=http://example.org/a.pdf&sa=U"]
                       Mock.block_without_href []
                       ["/url?q=http://example.org/a.pdf&sa=U"] KeyError
                       eq_refl eq_refl)).
  - destruct (Hgood [Mock.block "/url?q=http://example.org/a.pdf&sa=U";
                     Mock.block "/url?q=http://example.org/b.pdf&sa=U"]
                    ["/url?q=http://example.org/a.pdf&sa=U";
                     "/url?q=http://example.org/b.pdf&sa=U"] eq_refl)
      as [links [Hrun [Hlinks _]]].
    exists links. split; [exact Hrun | exact Hlinks].
Defined.

Lemma scrape_unwraps_redirects_witness :
  find_results Mock.sharing_env "page" =
  map wrapped
      [("/url?q=", "http://example.org/a.pdf", Some "sa=U&ved=0ahUKEwi");
       ("/url?q=", "https://example.net/b.pdf", Some "usg=AOvVaw0");
       ("/url?u=", "http://example.com/c.pdf", None)] /\
  scrape Mock.sharing_env "page" =
  ["http://example.org/a.pdf"; "https://example.net/b.pdf";
   "http://example.com/c.pdf"].
Proof.
  split; [reflexivity|].
  apply (@scrape_unwraps_redirects Mock.sharing_env "page"
           [("/url?q=", "http://example.org/a.pdf", Some "sa=U&ved=0ahUKEwi");
            ("/url?q=", "https://example.net/b.pdf", Some "usg=AOvVaw0");
            ("/url?u=", "http://example.com/c.pdf", None)]);
    reflexivity.
Defined.

Lemma scheme_filter_keeps_urls_witness :
  In "https://example.org/a.pdf"
     (scheme_filter ["ftp://example.org/a.pdf"; "https://example.org/a.pdf"]).
Proof.
  apply (@scheme_filter_keeps_urls
           ["ftp://example.org/a.pdf"; "https://example.org/a.pdf"]
           "https://example.org/a.pdf").
  - simpl. right. left. reflexivity.
  - right. exists "example.org/a.pdf". reflexivity.
Defined.

Lemma scheme_ok_long_links_witness :
  (8 <= String.length "ftp://example.org/a.pdf")%nat /\
  (scheme_ok "ftp://example.org/a.pdf" = true <->
   has_prefix "http://" "ftp://example.org/a.pdf" \/
   has_prefix "https://" "ftp://example.org/a.pdf").
Proof.
  assert (H : (8 <= String.length "ftp://example.org/a.pdf")%nat)
    by (simpl; lia).
  split; [exact H | exact (@scheme_ok_long_links "ftp://example.org/a.pdf" H)].
Defined.

(** *** [validate_links] beyond the claims *)

Lemma filter_all {A} (f : A -> bool) (xs : list A) :
  (forall x, In x xs -> f x = true) -> filter f xs = xs.
Proof.
  induction xs as [|x xs IH]; simpl; intros H; [reflexivity|].
  rewrite (H x (or_introl eq_refl)). f_equal. apply IH.
  intros y Hy. apply H. now right.
Qed.

Lemma first_occurrences_distinct (xs seen : list string) :
  NoDup xs -> (forall x, In x xs -> ~ In x seen) ->
  first_occurrences seen xs = xs.
Proof.
  revert seen; induction xs as [|y xs IH]; intros seen Hnd Hdis; simpl.
  - reflexivity.
  - inversion Hnd as [|? ? Hny Hnd']; subst.
    destruct (existsb (String.eqb y) seen) eqn:Ey.
    + apply existsb_eqb_In in Ey. exfalso. apply (Hdis y); simpl; tauto.
    + f_equal. apply IH; [exact Hnd'|].
      intros x Hx [Heq | Hs]; [subst; tauto|]. apply (Hdis x); simpl; tauto.
Qed.

Lemma last_code_fixed (g : string -> Z) (url : string) (links : list string) :
  last_code url (map (fun l => (l, g l)) links) =
  if existsb (String.eqb url) links then Some (g url) else None.
Proof.
  induction links as [|l links IH]; simpl; [reflexivity|].
  rewrite IH. destruct (existsb (String.eqb url) links).
  - now rewrite orb_true_r.
  - rewrite orb_false_r. destruct (String.eqb_spec url l); congruence.
Qed.

Section ValidatorFacts.

Variable E : Env.

Lemma probe_trace_fixed (answer : string -> result response)
      (links : list string) (n : Net E) :
  (forall url m, fst (urlopen E url m) = answer url) ->
  probe_trace E links n = map (fun l => (l, probe_code (answer l))) links.
Proof.
  intros Hfix. revert n; induction links as [|l links IH]; intros n; simpl.
  - reflexivity.
  - specialize (Hfix l n). destruct (urlopen E l n) as [r n']. simpl in Hfix.
    subst r. now rewrite IH.
Qed.

(** The links [validate_links] returns when the probes answer by the URL. *)
Lemma validate_links_fixed (answer : string -> result response)
      (links : list string) (w : World E) :
  (forall url m, fst (urlopen E url m) = answer url) ->
  fst (validate_links E links w) =
  Val (filter (fun url => negb (probe_code (answer url) =? 0))
              (first_occurrences [] (scheme_filter links))).
Proof.
  intros Hfix. rewrite validate_links_run. simpl. f_equal.
  rewrite probed_keys. apply filter_ext_in. intros url Hin.
  apply first_occurrences_In in Hin. destruct Hin as [Hin _].
  unfold accepted. rewrite get_record_probes.
  rewrite (probe_trace_fixed answer _ _ Hfix), last_code_fixed.
  apply existsb_eqb_In in Hin. now rewrite Hin.
Qed.

End ValidatorFacts.

(** X5. Every link [validate_links] returns is a link of its input that
    passed the scheme filter; when it has eight characters or more it begins
    with "http://" or with "https://". *)
Theorem validate_links_result_sound (E : Env) (links available : list string)
        (w w' : World E) (url : string) :
  validate_links E links w = (Val available, w') ->
  In url available ->
  In url links /\
  scheme_ok url = true /\
  ((8 <= String.length url)%nat ->
   has_prefix "http://" url \/ has_prefix "https://" url).
Proof.
  rewrite validate_links_run. intros Hrun Hin. inversion Hrun; subst. clear Hrun.
  apply filter_In in Hin. destruct Hin as [Hin _].
  rewrite probed_keys in Hin. apply first_occurrences_In in Hin.
  destruct Hin as [Hin _]. rewrite scheme_filter_filter in Hin.
  apply filter_In in Hin. destruct Hin as [Hin Hok].
  split; [exact Hin|]. split; [exact Hok|].
  intros Hlen. now apply prefix_of_scheme_ok.
Qed.

(** X6. When no link of the input passes the scheme filter (the empty input
    among them), [validate_links] returns the empty list, probes nothing and
    prints nothing. *)
Theorem validate_links_nothing_to_probe (E : Env) (links : list string)
        (w : World E) :
  scheme_filter links = [] ->
  validate_links E links w = (Val [], w).
Proof.
  intros Hnone. rewrite validate_links_run, Hnone. simpl.
  rewrite !app_nil_r. now rewrite <- world_eta.
Qed.

(** X7. Against a remote world that answers a probe by the URL alone,
    validating the links [validate_links] returned returns them again, all of
    them and in the same order. *)
Theorem validate_links_idempotent (E : Env) (answer : string -> result response)
        (links available : list string) (w w1 w2 : World E) :
  (forall url n, fst (urlopen E url n) = answer url) ->
  validate_links E links w = (Val available, w1) ->
  fst (validate_links E available w2) = Val available.
Proof.
  intros Hfix Hrun.
  pose proof (validate_links_fixed answer links w Hfix) as Hfirst.
  rewrite Hrun in Hfirst. simpl in Hfirst.
  assert (Havail : available =
                   filter (fun url => negb (probe_code (answer url) =? 0))
                          (first_occurrences [] (scheme_filter links)))
    by congruence.
  clear Hfirst Hrun.
  rewrite (validate_links_fixed answer available w2 Hfix). f_equal.
  assert (Hin : forall url, In url available ->
                             scheme_ok url = true /\
                             negb (probe_code (answer url) =? 0) = true).
  { intros url Hu. rewrite Havail in Hu. apply filter_In in Hu.
    destruct Hu as [Hu Hcode]. apply first_occurrences_In in Hu.
    destruct Hu as [Hu _]. rewrite scheme_filter_filter in Hu.
    apply filter_In in Hu. tauto. }
  assert (Hnd : NoDup available).
  { rewrite Havail. apply NoDup_filter. apply first_occurrences_NoDup. }
  rewrite scheme_filter_filter.
  rewrite (filter_all scheme_ok available) by (intros u Hu; now apply Hin).
  rewrite first_occurrences_distinct by (auto; intros u Hu []).
  apply filter_all. intros u Hu. now apply Hin.
Qed.

Lemma validate_links_result_sound_witness :
  validate_links Mock.env
    ["ttps://"; "http://example.org/a.pdf"; "ftp://example.org/b.pdf"]
    (Mock.world [])
  = (Val ["http://example.org/a.pdf"],
     snd (validate_links Mock.env
            ["ttps://"; "http://example.org/a.pdf"; "ftp://example.org/b.pdf"]
            (Mock.world []))) /\
  In "http://example.org/a.pdf"
     ["ttps://"; "http://example.org/a.pdf"; "ftp://example.org/b.pdf"] /\
  scheme_ok "http://example.org/a.pdf" = true.
Proof.
  split; [reflexivity|].
  destruct (@validate_links_result_sound Mock.env
              ["ttps://"; "http://example.org/a.pdf"; "ftp://example.org/b.pdf"]
              ["http://example.org/a.pdf"] (Mock.world []) _
              "http://example.org/a.pdf" eq_refl (or_introl eq_refl))
    as [Hin [Hok _]].
  split; [exact Hin | exact Hok].
Defined.

Lemma validate_links_nothing_to_probe_witness :
  scheme_filter ["ftp://example.org/a.pdf"; "mailto:someone@example.org"] = [] /\
  validate_links Mock.env
    ["ftp://example.org/a.pdf"; "mailto:someone@example.org"] (Mock.world [])
  = (Val [], Mock.world []).
Proof.
  split; [reflexivity|].
  apply (@validate_links_nothing_to_probe Mock.env
           ["ftp://example.org/a.pdf"; "mailto:someone@example.org"]
           (Mock.world [])).
  reflexivity.
Defined.

Lemma validate_links_idempotent_witness :
  validate_links Mock.fixed_env
    ["http://example.org/a.pdf"; "http://down.example/c.pdf";
     "http://example.org/a.pdf"; "http://gone.example/b.pdf"]
    (@Build_World Mock.fixed_env 0%nat [] [] [])
  = (Val ["http://example.org/a.pdf"; "http://gone.example/b.pdf"],
     snd (validate_links Mock.fixed_env
            ["http://example.org/a.pdf"; "http://down.example/c.pdf";
             "http://example.org/a.pdf"; "http://gone.example/b.pdf"]
            (@Build_World Mock.fixed_env 0%nat [] [] []))) /\
  fst (validate_links Mock.fixed_env
         ["http://example.org/a.pdf"; "http://gone.example/b.pdf"]
         (@Build_World Mock.fixed_env 0%nat [] [] []))
  = Val ["http://example.org/a.pdf"; "http://gone.example/b.pdf"].
Proof.
  split; [reflexivity|].
  apply (@validate_links_idempotent Mock.fixed_env
           (fun url => fst (Mock.fixed_open url 0%nat))
           ["http://example.org/a.pdf"; "http://down.example/c.pdf";
            "http://example.org/a.pdf"; "http://gone.example/b.pdf"]
           ["http://example.org/a.pdf"; "http://gone.example/b.pdf"]
           (@Build_World Mock.fixed_env 0%nat [] [] [])
           (snd (validate_links Mock.fixed_env
                   ["http://example.org/a.pdf"; "http://down.example/c.pdf";
                    "http://example.org/a.pdf"; "http://gone.example/b.pdf"]
                   (@Build_World Mock.fixed_env 0%nat [] [] [])))
           (@Build_World Mock.fixed_env 0%nat [] [] [])).
  - intros url n. reflexivity.
  - reflexivity.
Defined.

(** *** [get_links] and [search] beyond the claims *)

Lemma range_nonpositive (limit : Z) : limit <= 0 -> Py.range 0 limit 10 = [].
Proof.
  intros H. rewrite range_0_10.
  assert (Hq : (limit + 9) / 10 < 1) by (apply Z.div_lt_upper_bound; lia).
  replace (Z.to_nat ((limit + 9) / 10)) with 0%nat by lia. reflexivity.
Qed.

Lemma slice_to_nil {A} (n : Z) : Py.slice_to n (@nil A) = [].
Proof. unfold Py.slice_to. destruct (0 <=? n); apply firstn_nil. Qed.

Section PagingFacts.

Variable E : Env.


(** The paging loop when a request raises. *)
Lemma paging_loop_fails (hdrs : headers) (starts : list Z) (params : Params.t)
      (links : list string) (w : World E) (e : exn) (n' : Net E) :
  fetch_pages E (Params.q params) hdrs starts (net w) = (Raise e, n') ->
  exists issued rest,
    starts = (issued ++ rest)%list /\
    for_each starts
      (fun start_index (st : Params.t * list string) =>
         bind (s_get E search_url (Params.set_start (fst st) start_index) hdrs)
              (fun resp =>
                 ret (Params.set_start (fst st) start_index,
                      (snd st ++ scrape E (content resp))%list)))
      (params, links) w =
    (Raise e,
     {| net := n';
        traffic :=
          (traffic w ++ map (search_request (Params.q params) hdrs) issued)%list;
        stdout := stdout w; stdin := stdin w |}).
Proof.
  revert params links w;
    induction starts as [|s starts IH]; intros params links w; simpl.
  - discriminate.
  - intros H. unfold bind at 1. unfold bind at 1. rewrite s_get_run.
    unfold Params.set_start at 1 2 3. simpl.
    destruct (session_get E search_url _ hdrs (net w)) as [[resp|e1] n1];
      simpl.
    + destruct (fetch_pages E (Params.q params) hdrs starts n1)
        as [[ps|e2] n2] eqn:Hrest; [discriminate|].
      inversion H; subst. unfold ret at 1.
      match goal with
      | |- context [for_each starts ?b (?p, ?l) ?w1] =>
          destruct (IH p l w1 Hrest) as [issued [rest [Hs Hrun]]]
      end.
      exists (s :: issued), rest. split; [simpl; now rewrite Hs|].
      etransitivity; [exact Hrun|]. simpl. now rewrite <- app_assoc.
    + inversion H; subst. exists [s], starts. split; reflexivity.
Qed.

Lemma get_links_fails (limit : Z) (params : Params.t) (hdrs : headers)
      (w : World E) (e : exn) (n' : Net E) :
  fetch_pages E (Params.q params) hdrs (Py.range 0 limit 10) (net w)
  = (Raise e, n') ->
  exists issued rest,
    Py.range 0 limit 10 = (issued ++ rest)%list /\
    get_links E limit params hdrs w =
    (Raise e,
     {| net := n';
        traffic :=
          (traffic w ++ map (search_request (Params.q params) hdrs) issued)%list;
        stdout := stdout w; stdin := stdin w |}).
Proof.
  intros H.
  destruct (paging_loop_fails hdrs _ params [] w H) as [issued [rest [Hs Hrun]]].
  exists issued, rest. split; [exact Hs|].
  unfold get_links. unfold bind at 1. now rewrite Hrun.
Qed.

End PagingFacts.

(** X8. With a limit of 0 or less, [get_links] and [search] return the empty
    list without a request, a probe or a printed line. *)
Theorem search_nonpositive_limit (E : Env) (query file_type : string)
        (limit : Z) (params : Params.t) (hdrs : headers) (w : World E) :
  limit <= 0 ->
  get_links E limit params hdrs w = (Val [], w) /\
  search E query file_type limit w = (Val [], w).
Proof.
  intros Hlimit.
  assert (Hget : forall p h, get_links E limit p h w = (Val [], w)).
  { intros p h. unfold get_links. rewrite range_nonpositive by exact Hlimit.
    simpl. unfold bind, ret. simpl. now rewrite slice_to_nil. }
  split; [apply Hget|].
  unfold search. unfold bind at 1. rewrite Hget. unfold bind.
  rewrite validate_links_run. simpl. unfold ret.
  rewrite !app_nil_r. now rewrite <- world_eta.
Qed.

(** X9. When one of the paged requests raises, [get_links] raises the same
    exception: the requests before it and the failing one were issued, in
    order, and none after it. *)
Theorem get_links_propagates_failure (E : Env) (limit : Z) (params : Params.t)
        (hdrs : headers) (w : World E) (e : exn) (n' : Net E) :
  fetch_pages E (Params.q params) hdrs (Py.range 0 limit 10) (net w)
  = (Raise e, n') ->
  exists issued rest,
    Py.range 0 limit 10 = (issued ++ rest)%list /\
    get_links E limit params hdrs w =
    (Raise e,
     {| net := n';
        traffic :=
          (traffic w ++ map (search_request (Params.q params) hdrs) issued)%list;
        stdout := stdout w; stdin := stdin w |}).
Proof. apply get_links_fails. Qed.

(** X10. When one of the paged requests raises, [search] raises the same
    exception and has then probed no link and printed nothing. *)
Theorem search_propagates_failure (E : Env) (query file_type : string)
        (limit : Z) (w : World E) (e : exn) (n' : Net E) :
  fetch_pages E ("filetype:" ++ file_type ++ " " ++ query)
              [("User Agent", user_agent)] (Py.range 0 limit 10) (net w)
  = (Raise e, n') ->
  exists issued,
    search E query file_type limit w =
    (Raise e,
     {| net := n';
        traffic :=
          (traffic w ++
           map (search_request ("filetype:" ++ file_type ++ " " ++ query)
                               [("User Agent", user_agent)]) issued)%list;
        stdout := stdout w; stdin := stdin w |}).
Proof.
  intros H.
  destruct (get_links_fails limit
              {| Params.q := "filetype:" ++ file_type ++ " " ++ query;
                 Params.start := 0 |}
              [("User Agent", user_agent)] w H)
    as [issued [rest [_ Hrun]]].
  exists issued. unfold search. unfold bind at 1. now rewrite Hrun.
Qed.


Lemma search_nonpositive_limit_witness :
  -5 <= 0 /\
  get_links Mock.env (-5) Mock.params [] (Mock.world []) = (Val [], Mock.world []) /\
  search Mock.env "algorithms" "pdf" (-5) (Mock.world []) = (Val [], Mock.world []).
Proof.
  assert (H : -5 <= 0) by lia.
  split; [exact H|].
  exact (@search_nonpositive_limit Mock.env "algorithms" "pdf" (-5) Mock.params
           [] (Mock.world []) H).
Defined.

Lemma get_links_propagates_failure_witness :
  fetch_pages Mock.failing_env (Params.q Mock.params) [] (Py.range 0 30 10)
              0%nat
  = (Raise ConnectionError, 2%nat) /\
  exists issued rest,
    Py.range 0 30 10 = (issued ++ rest)%list /\
    get_links Mock.failing_env 30 Mock.params []
              (@Build_World Mock.failing_env 0%nat [] [] []) =
    (Raise ConnectionError,
     @Build_World Mock.failing_env 2%nat
       ([] ++ map (search_request (Params.q Mock.params) []) issued)%list [] []).
Proof.
  split; [reflexivity|].
  apply (@get_links_propagates_failure Mock.failing_env 30 Mock.params []
           (@Build_World Mock.failing_env 0%nat [] [] []) ConnectionError 2%nat).
  reflexivity.
Defined.

Lemma search_propagates_failure_witness :
  fetch_pages Mock.failing_env ("filetype:" ++ "pdf" ++ " " ++ "algorithms")
              [("User Agent", user_agent)] (Py.range 0 30 10) 0%nat
  = (Raise ConnectionError, 2%nat) /\
  exists issued,
    search Mock.failing_env "algorithms" "pdf" 30
           (@Build_World Mock.failing_env 0%nat [] [] []) =
    (Raise ConnectionError,
     @Build_World Mock.failing_env 2%nat
       ([] ++ map (search_request ("filetype:" ++ "pdf" ++ " " ++ "algorithms")
                                  [("User Agent", user_agent)]) issued)%list
       [] []).
Proof.
  split; [reflexivity|].
  apply (@search_propagates_failure Mock.failing_env "algorithms" "pdf" 30
           (@Build_World Mock.failing_env 0%nat [] [] []) ConnectionError 2%nat).
  reflexivity.
Defined.


(** *** The command line beyond the claims *)

Lemma replace_char_removes (s : string) :
  has_char " " (Py.replace_char " " "-" s) = false.
Proof.
  induction s as [|c s IH]; simpl; [reflexivity|].
  rewrite IH, orb_false_r.
  destruct (Ascii.eqb c " ") eqn:Ec; [reflexivity | exact Ec].
Qed.

Section CommandLine.

Variable E : Env.

Lemma show_filetypes_run (extensions : Py.dict ext_value) (w : World E) :
  show_filetypes E extensions w =
  (Val tt,
   {| net := net w; traffic := traffic w;
      stdout := (stdout w ++ map filetype_line extensions)%list;
      stdin := stdin w |}).
Proof.
  unfold show_filetypes.
  revert w; induction extensions as [|item exts IH]; intros w; simpl.
  - unfold ret. rewrite app_nil_r. now rewrite <- world_eta.
  - unfold bind at 1. unfold print at 1. rewrite IH. simpl.
    now rewrite <- app_assoc.
Qed.

(** Lines that the interpreter takes neither for 'y' nor for 'n' are
    answered with the error message and the prompt is asked again. *)
Lemma prompt_loop_invalid (message errormessage : string)
      (invalid tail : list string) (w : World E) :
  forallb (fun l => negb (str_is E l "y") && negb (str_is E l "n")) invalid
  = true ->
  prompt_loop E message errormessage (isvalid E) (isexit E) (invalid ++ tail) w =
  prompt_loop E message errormessage (isvalid E) (isexit E) tail
    {| net := net w; traffic := traffic w;
       stdout := (stdout w ++
                  flat_map (fun _ => [Prompted (message ++ ": ");
                                      Printed errormessage]) invalid)%list;
       stdin := match invalid with [] => stdin w | _ => tail end |}.
Proof.
  revert w; induction invalid as [|l invalid IH]; intros w Hinv.
  - simpl. rewrite app_nil_r. now rewrite <- world_eta.
  - simpl in Hinv. apply andb_true_iff in Hinv. destruct Hinv as [Hl Hinv].
    apply andb_true_iff in Hl. destruct Hl as [Hy Hn].
    apply negb_true_iff in Hy, Hn.
    change ((l :: invalid) ++ tail)%list with (l :: (invalid ++ tail))%list.
    cbn [prompt_loop]. unfold isexit at 1, isvalid at 1. rewrite Hy, Hn.
    cbn [truthy negb]. rewrite IH by exact Hinv. f_equal.
    unfold write, with_stdin. cbn [net traffic stdout stdin flat_map].
    f_equal.
    + rewrite <- !app_assoc. reflexivity.
    + now destruct invalid.
Qed.

(** A line [prompt] returns is a line of the input that the interpreter
    took for 'y'. *)
Lemma prompt_loop_val (message errormessage : string) (lines : list string)
      (w : World E) (res : string) :
  fst (prompt_loop E message errormessage (isvalid E) (isexit E) lines w)
  = Val res ->
  In res lines /\ str_is E res "y" = true.
Proof.
  revert w; induction lines as [|l lines IH]; intros w; simpl.
  - discriminate.
  - unfold isexit at 1, isvalid at 1.
    destruct (str_is E l "n"); simpl; [discriminate|].
    destruct (str_is E l "y") eqn:Hy; simpl.
    + intros H. inversion H; subst. tauto.
    + intros H. apply IH in H. tauto.
Qed.

Lemma prompt_confirmed (message errormessage : string)
      (invalid rest : list string) (ans : string) (w : World E) :
  forallb (fun l => negb (str_is E l "y") && negb (str_is E l "n")) invalid
  = true ->
  stdin w = (invalid ++ ans :: rest)%list ->
  str_is E ans "n" = false ->
  str_is E ans "y" = true ->
  prompt E message errormessage (isvalid E) (isexit E) w =
  (Val ans,
   {| net := net w; traffic := traffic w;
      stdout := (stdout w ++
                 flat_map (fun _ => [Prompted (message ++ ": ");
                                     Printed errormessage]) invalid ++
                 [Prompted (message ++ ": ")])%list;
      stdin := rest |}).
Proof.
  intros Hinv Hin Hn Hy. unfold prompt. rewrite Hin.
  rewrite prompt_loop_invalid by exact Hinv. cbn [prompt_loop].
  unfold isexit, isvalid. rewrite Hn, Hy. cbn [truthy negb].
  unfold write, with_stdin. simpl. now rewrite <- app_assoc.
Qed.

Lemma prompt_declined (message errormessage : string)
      (invalid rest : list string) (ans : string) (w : World E) :
  forallb (fun l => negb (str_is E l "y") && negb (str_is E l "n")) invalid
  = true ->
  stdin w = (invalid ++ ans :: rest)%list ->
  str_is E ans "n" = true ->
  prompt E message errormessage (isvalid E) (isexit E) w =
  (Raise (SystemExit None),
   {| net := net w; traffic := traffic w;
      stdout := (stdout w ++
                 flat_map (fun _ => [Prompted (message ++ ": ");
                                     Printed errormessage]) invalid ++
                 [Prompted (message ++ ": ")])%list;
      stdin := rest |}).
Proof.
  intros Hinv Hin Hn. unfold prompt. rewrite Hin.
  rewrite prompt_loop_invalid by exact Hinv. cbn [prompt_loop].
  unfold isexit. rewrite Hn. cbn [truthy].
  unfold write, with_stdin. simpl. now rewrite <- app_assoc.
Qed.

Lemma prompt_input_ends (message errormessage : string) (w : World E) :
  forallb (fun l => negb (str_is E l "y") && negb (str_is E l "n")) (stdin w)
  = true ->
  prompt E message errormessage (isvalid E) (isexit E) w =
  (Raise EOFError,
   {| net := net w; traffic := traffic w;
      stdout := (stdout w ++
                 flat_map (fun _ => [Prompted (message ++ ": ");
                                     Printed errormessage]) (stdin w) ++
                 [Prompted (message ++ ": ")])%list;
      stdin := [] |}).
Proof.
  intros Hinv. unfold prompt.
  rewrite <- (app_nil_r (stdin w)) at 1.
  rewrite prompt_loop_invalid by exact Hinv. cbn [prompt_loop].
  unfold write, with_stdin. simpl. now rewrite <- app_assoc.
Qed.

Lemma validate_args_present (args : Args.t) (w : World E) :
  truthy_str (Args.query args) = true ->
  validate_args E args w = (Val tt, w).
Proof. intros H. unfold validate_args. now rewrite H. Qed.

End CommandLine.

(** X12. [show_filetypes] prints one line per entry of the catalog, in the
    order of the catalog, returns, and touches neither the network nor
    standard input; for the empty catalog it prints nothing. *)
Theorem show_filetypes_prints_table (E : Env) (extensions : Py.dict ext_value)
        (w : World E) :
  show_filetypes E extensions w =
  (Val tt,
   {| net := net w; traffic := traffic w;
      stdout := (stdout w ++ map filetype_line extensions)%list;
      stdin := stdin w |}) /\
  List.length (stdout (snd (show_filetypes E extensions w))) =
  (List.length (stdout w) + List.length extensions)%nat /\
  show_filetypes E [] w = (Val tt, w).
Proof.
  split; [apply show_filetypes_run|]. split.
  - rewrite show_filetypes_run. simpl. now rewrite length_app, length_map.
  - reflexivity.
Qed.

(** X13. With [--available] or [--threats], [main] prints the table of the
    catalog ([--available] first), returns with exit status 0 and does
    nothing else: no prompt, no query check, no network I/O, whatever the
    query and the file type are. *)
Theorem main_lists_filetypes (E : Env) (args : Args.t) (w : World E) :
  Args.available args = true \/ Args.threats args = true ->
  main E args w =
  (Val tt,
   {| net := net w; traffic := traffic w;
      stdout := (stdout w ++
                 map filetype_line
                     (if Args.available args then FILE_EXTENSIONS E
                      else THREAT_EXTENSIONS E))%list;
      stdin := stdin w |}) /\
  exit_status (fst (main E args w)) = 0.
Proof.
  intros Hflag. unfold main.
  destruct (Args.available args) eqn:Ha.
  - rewrite show_filetypes_run. split; reflexivity.
  - destruct Hflag as [Hflag | Hflag]; [discriminate|]. rewrite Hflag.
    rewrite show_filetypes_run. split; reflexivity.
Qed.

(** X14. [prompt] asks again after every line that the interpreter takes
    neither for 'y' nor for 'n', printing the error message each time.  At
    the first other line it leaves through [sys.exit()] when the line is
    taken for 'n' and returns the line when it is taken for 'y' only; it
    raises [EOFError] when the input ends before.  The lines after the
    answer stay on standard input. *)
Theorem prompt_reads_until_answer (E : Env) (message errormessage : string)
        (invalid rest : list string) (ans : string) (w : World E) :
  forallb (fun l => negb (str_is E l "y") && negb (str_is E l "n")) invalid
  = true ->
  let asked := (stdout w ++
                flat_map (fun _ => [Prompted (message ++ ": ");
                                    Printed errormessage]) invalid ++
                [Prompted (message ++ ": ")])%list in
  (stdin w = (invalid ++ ans :: rest)%list ->
   str_is E ans "n" = false -> str_is E ans "y" = true ->
   prompt E message errormessage (isvalid E) (isexit E) w =
   (Val ans, {| net := net w; traffic := traffic w;
                stdout := asked; stdin := rest |})) /\
  (stdin w = (invalid ++ ans :: rest)%list ->
   str_is E ans "n" = true ->
   prompt E message errormessage (isvalid E) (isexit E) w =
   (Raise (SystemExit None),
    {| net := net w; traffic := traffic w; stdout := asked; stdin := rest |})) /\
  (stdin w = invalid ->
   prompt E message errormessage (isvalid E) (isexit E) w =
   (Raise EOFError,
    {| net := net w; traffic := traffic w; stdout := asked; stdin := [] |})).
Proof.
  intros Hinv asked. unfold asked. split; [|split].
  - intros Hin Hn Hy.
    exact (@prompt_confirmed E message errormessage invalid rest ans w
             Hinv Hin Hn Hy).
  - intros Hin Hn.
    exact (@prompt_declined E message errormessage invalid rest ans w
             Hinv Hin Hn).
  - intros Hin. rewrite <- Hin in Hinv |- *.
    exact (@prompt_input_ends E message errormessage w Hinv).
Qed.

(** X15. For a file type of the threat catalog, [main] does no network I/O
    and downloads nothing unless the interpreter takes a line of standard
    input for 'y': it ends in [sys.exit()] or in [EOFError]. *)
Theorem main_threat_needs_confirmation (E : Env) (args : Args.t) (w : World E) :
  Args.available args = false ->
  Args.threats args = false ->
  check_threats E args = true ->
  (forall l, In l (stdin w) -> str_is E l "y" = false) ->
  traffic (snd (main E args w)) = traffic w /\
  net (snd (main E args w)) = net w /\
  (fst (main E args w) = Raise (SystemExit None) \/
   fst (main E args w) = Raise EOFError).
Proof.
  intros Ha Ht Hthreat Hno. unfold main. rewrite Ha, Ht, Hthreat.
  unfold bind, prompt.
  destruct (prompt_loop_outcome prompt_message prompt_errormessage
              (stdin w) w) as [Htr [Hnet Hout]].
  pose proof (@prompt_loop_val E prompt_message prompt_errormessage
                (stdin w) w) as Hval.
  destruct (prompt_loop E prompt_message prompt_errormessage (isvalid E)
              (isexit E) (stdin w) w) as [[res|e] w1]; simpl in *.
  - exfalso. destruct (Hval res eq_refl) as [Hin Hy].
    rewrite (Hno res Hin) in Hy. discriminate.
  - split; [exact Htr|]. split; [exact Hnet|].
    destruct Hout as [[res H] | [H | H]]; [discriminate | left | right];
      inversion H; reflexivity.
Qed.

Lemma call_traffic (E : Env) (A : Type) (ev : net_event)
      (f : Net E -> result A * Net E) (w : World E) :
  traffic (snd (call ev f w)) = (traffic w ++ [ev])%list.
Proof. unfold call, log, with_net. simpl. now destruct (f (net w)). Qed.

Lemma call_stdout (E : Env) (A : Type) (ev : net_event)
      (f : Net E -> result A * Net E) (w : World E) :
  stdout (snd (call ev f w)) = stdout w.
Proof. unfold call, log, with_net. simpl. now destruct (f (net w)). Qed.

(** X16. With a query, without [--available] and [--threats] and for a
    file type outside the threat catalog, [main] is [download_content]. *)
Theorem main_runs_download_content (E : Env) (args : Args.t) (w : World E) :
  Args.available args = false ->
  Args.threats args = false ->
  truthy_str (Args.query args) = true ->
  check_threats E args = false ->
  main E args w = download_content E args w.
Proof.
  intros Ha Ht Hq Hthreat.
  unfold main. rewrite Ha, Ht, Hthreat. unfold bind at 1. unfold ret at 1.
  unfold bind at 1. now rewrite validate_args_present.
Qed.

(** X19. With a query, without [--available] and [--threats] and for a
    file type of the threat catalog, once the prompt meets a line that the
    interpreter takes for 'y' and not for 'n', [main] goes on as
    [download_content], on the world the prompt left: the lines after the
    answer are still unread. *)
Theorem main_confirmed_runs_download_content (E : Env) (args : Args.t)
        (w : World E) (invalid rest : list string) (ans : string) :
  Args.available args = false ->
  Args.threats args = false ->
  truthy_str (Args.query args) = true ->
  check_threats E args = true ->
  forallb (fun l => negb (str_is E l "y") && negb (str_is E l "n")) invalid
  = true ->
  stdin w = (invalid ++ ans :: rest)%list ->
  str_is E ans "n" = false ->
  str_is E ans "y" = true ->
  main E args w =
  download_content E args
    {| net := net w; traffic := traffic w;
       stdout := (stdout w ++
                  flat_map (fun _ => [Prompted (prompt_message ++ ": ");
                                      Printed prompt_errormessage]) invalid ++
                  [Prompted (prompt_message ++ ": ")])%list;
       stdin := rest |}.
Proof.
  intros Ha Ht Hq Hthreat Hinv Hin Hn Hy.
  unfold main. rewrite Ha, Ht, Hthreat.
  unfold bind at 1. unfold bind at 1.
  rewrite (@prompt_confirmed E prompt_message prompt_errormessage
             invalid rest ans w Hinv Hin Hn Hy).
  unfold ret at 1. unfold bind at 1. now rewrite validate_args_present.
Qed.

(** X20. On an interpreter that never takes a line read for the object of
    a literal, the prompt cannot be answered: for a file type of the threat
    catalog (and no listing flag) [main] answers every line of standard
    input with the error message and ends in [EOFError], exit status 1,
    without network I/O, whatever the lines and the query are. *)
Theorem main_threat_unanswerable (E : Env) (args : Args.t) (w : World E) :
  (forall x lit, str_is E x lit = false) ->
  Args.available args = false ->
  Args.threats args = false ->
  check_threats E args = true ->
  main E args w =
  (Raise EOFError,
   {| net := net w; traffic := traffic w;
      stdout := (stdout w ++
                 flat_map (fun _ => [Prompted (prompt_message ++ ": ");
                                     Printed prompt_errormessage]) (stdin w) ++
                 [Prompted (prompt_message ++ ": ")])%list;
      stdin := [] |}) /\
  exit_status (fst (main E args w)) = 1.
Proof.
  intros Hfresh Ha Ht Hthreat.
  assert (Hrun : main E args w =
                 (Raise EOFError,
                  {| net := net w; traffic := traffic w;
                     stdout := (stdout w ++
                                flat_map (fun _ =>
                                            [Prompted (prompt_message ++ ": ");
                                             Printed prompt_errormessage])
                                         (stdin w) ++
                                [Prompted (prompt_message ++ ": ")])%list;
                     stdin := [] |})).
  { unfold main. rewrite Ha, Ht, Hthreat.
    unfold bind at 1. unfold bind at 1.
    rewrite prompt_input_ends; [reflexivity|].
    apply forallb_forall. intros l _. now rewrite !Hfresh. }
  split; [exact Hrun | now rewrite Hrun].
Qed.

(** X17. [download_content] hands the downloader exactly the links [search]
    returned, once, after the search, with the size bounds and the redirect
    flag of the command line, through [download_parallel] exactly when
    [--parallel] is set; the directory is the one given or, when none is
    given, the query with every space turned into a hyphen, which holds no
    space. *)
Theorem download_content_hands_links_over (E : Env) (args : Args.t)
        (w : World E) (qy : string) (links : list string) :
  Args.query args = Some qy ->
  let args' := if truthy_str (Args.directory args) then args
               else Args.set_directory args
                      (Some (Py.replace_char " " "-" qy)) in
  let searched := search E qy (Args.file_type args) (Args.limit args)
                         (write (Printed (downloading_message args')) w) in
  fst searched = Val links ->
  traffic (snd (download_content E args w)) =
    (traffic (snd searched) ++
     [Download (Args.parallel args) links (target_directory args)
               (Args.min_file_size args) (Args.max_file_size args)
               (Args.no_redirects args)])%list /\
  stdout (snd (download_content E args w)) = stdout (snd searched) /\
  (truthy_str (Args.directory args) = false ->
   target_directory args = Py.replace_char " " "-" qy /\
   has_char " " (target_directory args) = false).
Proof.
  intros Hq args' searched Hs.
  assert (Hdir : str_of (Args.directory args') = target_directory args).
  { unfold args', target_directory. rewrite Hq.
    destruct (truthy_str (Args.directory args)); reflexivity. }
  assert (Hrun : download_content E args w =
                 bind (print (downloading_message args'))
                   (fun _ =>
                      bind (search E qy (Args.file_type args) (Args.limit args))
                        (fun links0 =>
                           if Args.parallel args
                           then call (Download true links0 (target_directory args)
                                        (Args.min_file_size args)
                                        (Args.max_file_size args)
                                        (Args.no_redirects args))
                                  (download_parallel E links0
                                     (target_directory args)
                                     (Args.min_file_size args)
                                     (Args.max_file_size args)
                                     (Args.no_redirects args))
                           else call (Download false links0 (target_directory args)
                                        (Args.min_file_size args)
                                        (Args.max_file_size args)
                                        (Args.no_redirects args))
                                  (download_series E links0
                                     (target_directory args)
                                     (Args.min_file_size args)
                                     (Args.max_file_size args)
                                     (Args.no_redirects args)))) w).
  { unfold download_content. rewrite Hq. rewrite <- Hdir. unfold args'.
    destruct (truthy_str (Args.directory args)); unfold bind at 1;
      unfold ret at 1; simpl; rewrite ?Hq; reflexivity. }
  unfold bind at 1 in Hrun. unfold print at 1 in Hrun.
  unfold bind at 1 in Hrun. fold searched in Hrun.
  destruct searched as [r w1]. simpl in Hs. subst r.
  rewrite Hrun. simpl. split; [|split].
  - destruct (Args.parallel args); apply call_traffic.
  - destruct (Args.parallel args); apply call_stdout.
  - intros Hnone. unfold target_directory. rewrite Hnone, Hq. simpl.
    split; [reflexivity | apply replace_char_removes].
Qed.

(** X18. When [search] raises, [download_content] raises the same exception
    and nothing is handed to the downloader. *)
Theorem download_content_propagates_failure (E : Env) (args : Args.t)
        (w : World E) (qy : string) (e : exn) :
  Args.query args = Some qy ->
  let args' := if truthy_str (Args.directory args) then args
               else Args.set_directory args
                      (Some (Py.replace_char " " "-" qy)) in
  let searched := search E qy (Args.file_type args) (Args.limit args)
                         (write (Printed (downloading_message args')) w) in
  fst searched = Raise e ->
  download_content E args w = (Raise e, snd searched).
Proof.
  intros Hq args' searched Hs. unfold download_content. rewrite Hq.
  unfold searched, args' in *. clear searched args'.
  destruct (truthy_str (Args.directory args)); unfold bind at 1;
    unfold ret at 1; unfold bind at 1; unfold print at 1;
    unfold bind at 1; simpl; rewrite ?Hq; simpl;
    match goal with
    | H : fst ?s = Raise e |- _ => destruct s as [r w1]; simpl in H; subst r
    end; reflexivity.
Qed.

Lemma main_lists_filetypes_witness :
  (Args.available (Mock.listing_args false true) = true \/
   Args.threats (Mock.listing_args false true) = true) /\
  main Mock.env (Mock.listing_args false true) (Mock.world []) =
  (Val tt,
   @Build_World Mock.env 0%nat []
     [Printed "exe : Windows executable"; Printed "js, vbs: Script"] []).
Proof.
  assert (H : Args.available (Mock.listing_args false true) = true \/
              Args.threats (Mock.listing_args false true) = true)
    by (right; reflexivity).
  split; [exact H|].
  exact (proj1 (@main_lists_filetypes Mock.env (Mock.listing_args false true)
                  (Mock.world []) H)).
Defined.

Lemma prompt_reads_until_answer_witness :
  forallb (fun l => negb (str_is Mock.env l "y") && negb (str_is Mock.env l "n"))
          ["maybe"; ""; "y"; "later"] = true /\
  prompt Mock.env "Proceed" "Invalid" (isvalid Mock.env) (isexit Mock.env)
         (Mock.world ["maybe"; ""; "y"; "later"]) =
  (Raise EOFError,
   @Build_World Mock.env 0%nat []
     [Prompted "Proceed: "; Printed "Invalid";
      Prompted "Proceed: "; Printed "Invalid";
      Prompted "Proceed: "; Printed "Invalid";
      Prompted "Proceed: "; Printed "Invalid"; Prompted "Proceed: "]
     []).
Proof.
  split; [reflexivity|].
  exact (proj2 (proj2 (@prompt_reads_until_answer Mock.env "Proceed" "Invalid"
                         ["maybe"; ""; "y"; "later"] [] ""
                         (Mock.world ["maybe"; ""; "y"; "later"]) eq_refl))
               eq_refl).
Defined.

Lemma main_threat_needs_confirmation_witness :
  check_threats Mock.env (Mock.args (Some "algorithms") "exe" 10) = true /\
  (forall l, In l (stdin (Mock.world ["maybe"; "n"])) ->
             str_is Mock.env l "y" = false) /\
  traffic (snd (main Mock.env (Mock.args (Some "algorithms") "exe" 10)
                     (Mock.world ["maybe"; "n"]))) = [] /\
  fst (main Mock.env (Mock.args (Some "algorithms") "exe" 10)
            (Mock.world ["maybe"; "n"])) = Raise EOFError.
Proof.
  assert (Hno : forall l, In l (stdin (Mock.world ["maybe"; "n"])) ->
                          str_is Mock.env l "y" = false)
    by (intros l _; reflexivity).
  split; [reflexivity|]. split; [exact Hno|].
  destruct (@main_threat_needs_confirmation Mock.env
              (Mock.args (Some "algorithms") "exe" 10)
              (Mock.world ["maybe"; "n"]) eq_refl eq_refl eq_refl Hno)
    as [Htraffic _].
  split; [exact Htraffic | reflexivity].
Defined.

Lemma main_runs_download_content_witness :
  truthy_str (Args.query (Mock.args (Some "algorithms") "pdf" 10)) = true /\
  check_threats Mock.env (Mock.args (Some "algorithms") "pdf" 10) = false /\
  main Mock.env (Mock.args (Some "algorithms") "pdf" 10) (Mock.world []) =
  download_content Mock.env (Mock.args (Some "algorithms") "pdf" 10)
                   (Mock.world []).
Proof.
  split; [reflexivity|]. split; [reflexivity|].
  exact (@main_runs_download_content Mock.env
           (Mock.args (Some "algorithms") "pdf" 10) (Mock.world [])
           eq_refl eq_refl eq_refl eq_refl).
Defined.

Lemma main_confirmed_runs_download_content_witness :
  check_threats Mock.sharing_env (Mock.args (Some "algorithms") "exe" 10) = true /\
  str_is Mock.sharing_env "y" "y" = true /\
  main Mock.sharing_env (Mock.args (Some "algorithms") "exe" 10)
       (@Build_World Mock.sharing_env 0%nat [] [] ["maybe"; "y"; "later"]) =
  download_content Mock.sharing_env (Mock.args (Some "algorithms") "exe" 10)
    (@Build_World Mock.sharing_env 0%nat []
       ([] ++
        flat_map (fun _ => [Prompted (prompt_message ++ ": ");
                            Printed prompt_errormessage]) ["maybe"] ++
        [Prompted (prompt_message ++ ": ")])%list
       ["later"]).
Proof.
  split; [reflexivity|]. split; [reflexivity|].
  exact (@main_confirmed_runs_download_content Mock.sharing_env
           (Mock.args (Some "algorithms") "exe" 10)
           (@Build_World Mock.sharing_env 0%nat [] [] ["maybe"; "y"; "later"])
           ["maybe"] ["later"] "y"
           eq_refl eq_refl eq_refl eq_refl eq_refl eq_refl eq_refl eq_refl).
Defined.

Lemma main_threat_unanswerable_witness :
  (forall x lit, str_is Mock.env x lit = false) /\
  fst (main Mock.env (Mock.args (Some "algorithms") "exe" 10)
            (Mock.world ["y"; "later"])) = Raise EOFError /\
  traffic (snd (main Mock.env (Mock.args (Some "algorithms") "exe" 10)
                     (Mock.world ["y"; "later"]))) = [] /\
  exit_status (fst (main Mock.env (Mock.args (Some "algorithms") "exe" 10)
                         (Mock.world ["y"; "later"]))) = 1.
Proof.
  assert (Hfresh : forall x lit, str_is Mock.env x lit = false)
    by (intros x lit; reflexivity).
  split; [exact Hfresh|].
  destruct (@main_threat_unanswerable Mock.env
              (Mock.args (Some "algorithms") "exe" 10)
              (Mock.world ["y"; "later"]) Hfresh eq_refl eq_refl eq_refl)
    as [Hrun Hstatus].
  rewrite Hrun. split; [reflexivity|]. split; [reflexivity|].
  rewrite Hrun in Hstatus. exact Hstatus.
Defined.

Lemma download_content_hands_links_over_witness :
  Args.query (Mock.args (Some "graph theory") "pdf" 10) = Some "graph theory" /\
  target_directory (Mock.args (Some "graph theory") "pdf" 10) = "graph-theory" /\
  has_char " " (target_directory (Mock.args (Some "graph theory") "pdf" 10))
  = false.
Proof.
  split; [reflexivity|].
  exact (proj2 (proj2
           (@download_content_hands_links_over Mock.env
              (Mock.args (Some "graph theory") "pdf" 10) (Mock.world [])
              "graph theory"
              (map (fun i => "http://example.org/0/" ++ Py.fmt_d (Z.of_nat i)
                             ++ ".pdf") (seq 0 10))
              eq_refl eq_refl))
           eq_refl).
Defined.

Lemma download_content_propagates_failure_witness :
  Args.query (Mock.args (Some "algorithms") "pdf" 30) = Some "algorithms" /\
  fst (download_content Mock.failing_env (Mock.args (Some "algorithms") "pdf" 30)
         (@Build_World Mock.failing_env 0%nat [] [] []))
  = Raise ConnectionError.
Proof.
  split; [reflexivity|].
  rewrite (@download_content_propagates_failure Mock.failing_env
             (Mock.args (Some "algorithms") "pdf" 30)
             (@Build_World Mock.failing_env 0%nat [] [] [])
             "algorithms" ConnectionError eq_refl eq_refl).
  reflexivity.
Defined.
